(** * Temporary-file idioms of [python-example.py]

    The script is a straight-line sequence of five demonstrations that
    create, use and delete temporary files through [tempfile], [os] and
    [subprocess].  It is embedded here as a program tree over the library
    calls it makes; an interpreter gives the tree its meaning on a model
    of the world the script runs in: a flat POSIX name space, the table of
    Python file objects, the text printed so far, the names that
    [tempfile]'s random generator will draw, and a schedule that says
    which input/output calls the environment lets fail.  Text is kept as
    its bytes (the script writes ASCII only), objects are finalised as
    under CPython's reference counting. *)

From Stdlib Require Import String Ascii List ZArith Lia.
From stdpp Require Import gmap strings list fin_maps pretty.

Local Open Scope string_scope.
Local Open Scope list_scope.

(** ** Python values *)

Module Py.

(** The two characters that cannot be written inside a literal here. *)
Definition nl : string := String "010"%char EmptyString.
Definition dq : string := String "034"%char EmptyString.

(** [str(b)] for a bool, as an f-string interpolates it. *)
Definition str_bool (b : bool) : string := if b then "True" else "False".

(** [str(n)] for a non-negative int. *)
Definition str_nat (n : nat) : string := pretty n.

(** [sep.join(l)] *)
Fixpoint join (sep : string) (l : list string) : string :=
  match l with
  | [] => EmptyString
  | [x] => x
  | x :: l' => x +:+ sep +:+ join sep l'
  end.

Definition hex_digit (n : N) : ascii :=
  match n with
  | 0 => "0" | 1 => "1" | 2 => "2" | 3 => "3" | 4 => "4" | 5 => "5"
  | 6 => "6" | 7 => "7" | 8 => "8" | 9 => "9" | 10 => "a" | 11 => "b"
  | 12 => "c" | 13 => "d" | 14 => "e" | _ => "f"
  end%N%char.

Fixpoint occurs (c : ascii) (s : string) : bool :=
  match s with
  | EmptyString => false
  | String c' s' => if Ascii.eqb c c' then true else occurs c s'
  end.

(** One character of [repr(s)] with [q] the chosen quote: backslash and
    the quote are escaped, the common control characters have their
    letter, other ASCII control characters are written [\xNN]; a byte
    above 127 belongs to the UTF-8 encoding of a character and is kept,
    as [repr] keeps printable characters. *)
Definition repr_char (q c : ascii) : string :=
  let n := N_of_ascii c in
  if Ascii.eqb c "\" then "\\"
  else if Ascii.eqb c q then String "\" (String c EmptyString)
  else if (n =? 10)%N then "\n"
  else if (n =? 13)%N then "\r"
  else if (n =? 9)%N then "\t"
  else if ((n <? 32) || (n =? 127))%N
       then "\x" +:+ String (hex_digit (n / 16)) (String (hex_digit (n mod 16)) EmptyString)
  else String c EmptyString.

Fixpoint repr_chars (q : ascii) (s : string) : string :=
  match s with
  | EmptyString => EmptyString
  | String c s' => repr_char q c +:+ repr_chars q s'
  end.

(** [repr(s)]: single quotes, unless [s] has a single quote and no
    double quote. *)
Definition repr_str (s : string) : string :=
  let q := if occurs "'" s && negb (occurs "034" s) then "034"%char else "'"%char in
  String q (repr_chars q s +:+ String q EmptyString).

(** [repr(l)] for a list of [str], what [{files}] and [{sys.argv[1:]}]
    interpolate. *)
Definition repr_list (l : list string) : string :=
  "[" +:+ join ", " (map repr_str l) +:+ "]".

(** Whitespace in the sense of [str.isspace], ASCII range. *)
Definition is_space (c : ascii) : bool :=
  let n := N_of_ascii c in
  ((9 <=? n) && (n <=? 13) || (28 <=? n) && (n <=? 32))%N.

Fixpoint lstrip (s : string) : string :=
  match s with
  | EmptyString => EmptyString
  | String c s' => if is_space c then lstrip s' else s
  end.

(** Drops trailing whitespace: a character stays when it is not
    whitespace or when something that stays follows it. *)
Fixpoint rstrip (s : string) : string :=
  match s with
  | EmptyString => EmptyString
  | String c s' =>
      match rstrip s' with
      | EmptyString => if is_space c then EmptyString else String c EmptyString
      | r => String c r
      end
  end.

(** [s.strip()] *)
Definition strip (s : string) : string := rstrip (lstrip s).

(** [sub in s] *)
Fixpoint contains (sub s : string) : bool :=
  if String.prefix sub s then true
  else match s with
       | EmptyString => false
       | String _ s' => contains sub s'
       end.

(** [s.splitlines()] restricted to the line feed, which is the only
    line boundary [print] produces. *)
Fixpoint lines_from (cur : string) (s : string) : list string :=
  match s with
  | EmptyString => match cur with EmptyString => [] | _ => [cur] end
  | String c s' =>
      if Ascii.eqb c "010" then cur :: lines_from EmptyString s'
      else lines_from (cur +:+ String c EmptyString) s'
  end.
Definition splitlines (s : string) : list string := lines_from EmptyString s.

(** What reading in text mode with the default [newline=None] does to
    the bytes of the file: [\r\n] and a lone [\r] become [\n]. *)
Fixpoint universal_newlines (s : string) : string :=
  match s with
  | EmptyString => EmptyString
  | String c s' =>
      if Ascii.eqb c "013" then
        match s' with
        | String c' _ =>
            if Ascii.eqb c' "010" then universal_newlines s'
            else String "010" (universal_newlines s')
        | EmptyString => String "010" EmptyString
        end
      else String c (universal_newlines s')
  end.

End Py.

(** ** Paths *)

Module Path.

(** [a.endswith('/')] *)
Fixpoint ends_with_slash (a : string) : bool :=
  match a with
  | EmptyString => false
  | String c EmptyString => Ascii.eqb c "/"
  | String _ a' => ends_with_slash a'
  end.

(** [b.startswith('/')] *)
Definition starts_with_slash (b : string) : bool :=
  match b with
  | String c _ => Ascii.eqb c "/"
  | EmptyString => false
  end.

(** [os.path.join(a, b)] of [posixpath]: an absolute [b] replaces [a];
    otherwise the two are joined with exactly one separator. *)
Definition join (a b : string) : string :=
  if starts_with_slash b then b
  else if (String.length a =? 0)%nat || ends_with_slash a then a +:+ b
  else a +:+ "/" +:+ b.

(** The directories a path names on the way to its last component: every
    [q] with [p = q ++ "/" ++ rest], shortest first.  The root is the
    empty prefix. *)
Fixpoint ancestors (p : string) : list string :=
  match p with
  | EmptyString => []
  | String c p' =>
      (if Ascii.eqb "/" c then [EmptyString] else []) ++ (String c <$> ancestors p')
  end.

(** [os.path.dirname] without its normalisation of the root. *)
Definition parent (p : string) : option string := last (ancestors p).

Fixpoint strip_prefix (pre s : string) : option string :=
  match pre with
  | EmptyString => Some s
  | String c pre' =>
      match s with
      | String c' s' => if Ascii.eqb c c' then strip_prefix pre' s' else None
      | EmptyString => None
      end
  end.

(** The name under which [p] is an entry of directory [d], if it is
    one: [p = d/name] with a non-empty [name] free of separators. *)
Definition child_name (d p : string) : option string :=
  match strip_prefix (d +:+ "/") p with
  | Some n => if Py.occurs "/" n || (String.length n =? 0)%nat then None else Some n
  | None => None
  end.

(** [p] is [d] itself or lies below it. *)
Definition within (d p : string) : bool :=
  bool_decide (p = d) || bool_decide (d ∈ ancestors p).

End Path.


(** ** The world the script runs in *)

(** A name is a regular file with permission bits and bytes, or a
    directory.  Names are compared literally: no [.], [..], repeated
    separators or links. *)
Inductive node :=
| File (perm : N) (data : string)
| Dir (perm : N).

Definition is_dir (o : option node) : bool :=
  match o with Some (Dir _) => true | _ => false end.

(** The modes the script opens files in: ['r'] and ['w'] (text), and the
    default ['w+b'] of [NamedTemporaryFile]. *)
Inductive open_mode := mode_r | mode_w | mode_wb_plus.

Definition readable (m : open_mode) : bool :=
  match m with mode_w => false | _ => true end.
Definition writable (m : open_mode) : bool :=
  match m with mode_r => false | _ => true end.
Definition text_mode (m : open_mode) : bool :=
  match m with mode_wb_plus => false | _ => true end.

(** A Python file object: where it points, what has been written but
    not yet handed to the operating system, and whether closing it
    unlinks its name ([delete=True] of [NamedTemporaryFile]). *)
Record pyfile := PyFile {
  f_path : string;
  f_mode : open_mode;
  f_open : bool;
  f_pos : nat;
  f_buf : string;
  f_delete : bool
}.

Record world := World {
  fs : gmap string node;
  files : list pyfile;      (* file objects, a handle is an index *)
  stdout : string;
  tmpdir : string;          (* tempfile.gettempdir() *)
  executable : string;      (* sys.executable *)
  rng : list string;        (* what the random name generator yields next *)
  faults : list nat         (* for each failure to come: how many
                               input/output calls succeed before it *)
}.

Definition set_fs (g : gmap string node → gmap string node) (w : world) : world :=
  World (g (fs w)) (files w) (stdout w) (tmpdir w) (executable w) (rng w) (faults w).
Definition set_files (g : list pyfile → list pyfile) (w : world) : world :=
  World (fs w) (g (files w)) (stdout w) (tmpdir w) (executable w) (rng w) (faults w).
Definition set_stdout (g : string → string) (w : world) : world :=
  World (fs w) (files w) (g (stdout w)) (tmpdir w) (executable w) (rng w) (faults w).
Definition set_rng (r : list string) (w : world) : world :=
  World (fs w) (files w) (stdout w) (tmpdir w) (executable w) r (faults w).
Definition set_faults (l : list nat) (w : world) : world :=
  World (fs w) (files w) (stdout w) (tmpdir w) (executable w) (rng w) l.

Inductive exn :=
| OSError
| FileNotFoundError
| FileExistsError
| IsADirectoryError
| NotADirectoryError
| ValueError
| UnsupportedOperation
| SystemExit (code : Z)
| Unmodelled.

Inductive result (A : Type) :=
| Ok (a : A)
| Raised (e : exn).
Arguments Ok {A} a.
Arguments Raised {A} e.

(** *** Files on disk *)

Fixpoint str_take (n : nat) (s : string) : string :=
  match n with
  | O => EmptyString
  | S n' =>
      match s with
      | EmptyString => String "000" (str_take n' EmptyString)
      | String c s' => String c (str_take n' s')
      end
  end.

Fixpoint str_drop (n : nat) (s : string) : string :=
  match n, s with
  | S n', String _ s' => str_drop n' s'
  | _, _ => s
  end.

(** [pwrite]: [buf] lands at offset [pos]; a gap is filled with zeros. *)
Definition pwrite (data : string) (pos : nat) (buf : string) : string :=
  str_take pos data +:+ buf +:+ str_drop (pos + String.length buf) data.

(** An empty buffer writes nothing; writing through a handle whose name
    has been unlinked reaches no name. *)
Definition write_at (p : string) (pos : nat) (buf : string)
    (m : gmap string node) : gmap string node :=
  match buf, m !! p with
  | String _ _, Some (File perm data) => <[p := File perm (pwrite data pos buf)]> m
  | _, _ => m
  end.

(** [os.unlink] as the runtime's cleanup uses it: a missing name is not
    an error. *)
Definition unlink_quiet (p : string) (m : gmap string node) : gmap string node :=
  match m !! p with
  | Some (File _ _) => delete p m
  | _ => m
  end.

(** [shutil.rmtree(d)]: the directory and everything below it. *)
Definition rmtree (d : string) (m : gmap string node) : gmap string node :=
  filter (λ kv, Path.within d kv.1 = false) m.

(** [os.listdir(d)], in the order the map enumerates its keys (the
    order of [os.listdir] is arbitrary). *)
Definition listdir (d : string) (m : gmap string node) : list string :=
  omap (λ kv, Path.child_name d kv.1) (map_to_list m).

(** The directory a new name goes into must exist; the root and the
    working directory always do. *)
Definition parent_ok (p : string) (m : gmap string node) : bool :=
  match Path.parent p with
  | None => true
  | Some q => (String.length q =? 0)%nat || is_dir (m !! q)
  end.

(** [tempfile]'s search for an unused name: candidates are drawn until
    one does not exist. *)
Fixpoint pick_name (m : gmap string node) (dir suffix : string)
    (names : list string) : option (string * list string) :=
  match names with
  | [] => None
  | r :: names' =>
      let p := Path.join dir ("tmp" +:+ r +:+ suffix) in
      match m !! p with
      | None => Some (p, names')
      | Some _ => pick_name m dir suffix names'
      end
  end.

(** Whether the input/output call that is about to be made fails; an
    empty schedule has no faults. *)
Definition pop_fault (w : world) : bool * world :=
  match faults w with
  | [] => (false, w)
  | O :: l => (true, set_faults l w)
  | S n :: l => (false, set_faults (n :: l) w)
  end.

(** ** The calls the script makes *)

(** What [tempfile.NamedTemporaryFile] returns: the file object and its
    [name]. *)
Record tmpfile := TmpFile { file : nat; name : string }.

Module Subprocess.
(** [subprocess.CompletedProcess] as far as the script looks at it
    ([stderr] is captured and never read). *)
Record CompletedProcess := Completed {
  args : list string;
  returncode : Z;
  stdout : string
}.
End Subprocess.

Inductive call : Type → Type :=
| Print (s : string) : call unit
| NamedTemporaryFile (mode : open_mode) (delete : bool) (suffix : string) : call tmpfile
| TemporaryDirectory : call string
| Cleanup (d : string) : call unit        (* TemporaryDirectory.__exit__ *)
| Open (p : string) (mode : open_mode) : call nat
| Write (f : nat) (s : string) : call unit
| Flush (f : nat) : call unit
| Read (f : nat) : call string
| Close (f : nat) : call unit             (* close() and __exit__ of a file *)
| Del (f : nat) : call unit               (* the last reference is dropped *)
| OsPathExists (p : string) : call bool
| OsRemove (p : string) : call unit
| OsListdir (d : string) : call (list string)
| OsChmod (p : string) (perm : N) : call unit
| SysExecutable : call string             (* sys.executable *)
| SubprocessRun (argv : list string) : call Subprocess.CompletedProcess
| SysExit (code : Z) : call Empty_set.

(** A program is a tree of calls; [try]/[finally] is a node of its own
    because the interpreter decides whether the body raised. *)
Inductive prog (A : Type) : Type :=
| Ret (a : A)
| Call {X : Type} (c : call X) (k : X → prog A)
| TryFinally {B : Type} (body : prog B) (final : prog unit) (k : B → prog A).
Arguments Ret {A} a.
Arguments Call {A X} c k.
Arguments TryFinally {A B} body final k.

Fixpoint bind {A B : Type} (p : prog A) (g : A → prog B) : prog B :=
  match p with
  | Ret a => g a
  | Call c k => Call c (λ x, bind (k x) g)
  | TryFinally body final k => TryFinally body final (λ b, bind (k b) g)
  end.

#[export] Instance prog_ret : MRet prog := @Ret.
#[export] Instance prog_bind : MBind prog := λ A B g p, bind p g.

Definition do {X : Type} (c : call X) : prog X := Call c Ret.

(** [try: body finally: final] *)
Definition try_finally {A : Type} (body : prog A) (final : prog unit) : prog A :=
  TryFinally body final Ret.

(** [with enter as r: body], for a context manager that does not
    swallow exceptions. *)
Definition with_ {R A : Type} (enter : call R) (exit : R → call unit)
    (body : R → prog A) : prog A :=
  Call enter (λ r, TryFinally (body r) (do (exit r)) Ret).

(** [for x in l: body] *)
Fixpoint for_ {X : Type} (l : list X) (body : X → prog unit) : prog unit :=
  match l with
  | [] => Ret tt
  | x :: l' => body x ;; for_ l' body
  end.

(** [range(n)] *)
Definition range (n : nat) : list nat := seq 0 n.

(** ** What the calls do *)

Definition io {X : Type} (w : world) (k : world → world * result X) : world * result X :=
  let (failed, w') := pop_fault w in
  if failed then (w', Raised OSError) else k w'.

Definition do_print (s : string) (w : world) : world * result unit :=
  io w (λ w, (set_stdout (λ out, out +:+ s +:+ Py.nl) w, Ok tt)).

Definition do_NamedTemporaryFile (m : open_mode) (delete : bool) (suffix : string)
    (w : world) : world * result tmpfile :=
  if is_dir (fs w !! tmpdir w) then
    match pick_name (fs w) (tmpdir w) suffix (rng w) with
    | Some (p, names) =>             (* created with permissions 0o600 *)
        (set_rng names
           (set_files (λ l, l ++ [PyFile p m true 0 EmptyString delete])
              (set_fs <[p := File 384 EmptyString]> w)),
         Ok (TmpFile (length (files w)) p))
    | None => (set_rng [] w, Raised FileExistsError)
    end
  else (w, Raised FileNotFoundError).

Definition do_TemporaryDirectory (w : world) : world * result string :=
  if is_dir (fs w !! tmpdir w) then
    match pick_name (fs w) (tmpdir w) EmptyString (rng w) with
    | Some (d, names) =>             (* created with permissions 0o700 *)
        (set_rng names (set_fs <[d := Dir 448]> w), Ok d)
    | None => (set_rng [] w, Raised FileExistsError)
    end
  else (w, Raised FileNotFoundError).

Definition do_cleanup (d : string) (w : world) : world * result unit :=
  (set_fs (rmtree d) w, Ok tt).

Definition do_open (p : string) (m : open_mode) (w : world) : world * result nat :=
  io w (λ w,
    let opened g := (set_files (λ l, l ++ [PyFile p m true 0 EmptyString false]) (set_fs g w),
                     Ok (length (files w))) in
    match fs w !! p with
    | Some (Dir _) => (w, Raised IsADirectoryError)
    | Some (File perm _) =>
        if writable m then opened <[p := File perm EmptyString]> else opened id
    | None =>
        if writable m && parent_ok p (fs w)
        then opened <[p := File 420 EmptyString]>      (* 0o666 under umask 0o022 *)
        else (w, Raised FileNotFoundError)
    end).

(** A file object that is in use: known and not closed. *)
Definition in_use {X : Type} (f : nat) (w : world)
    (k : pyfile → world * result X) : world * result X :=
  match files w !! f with
  | Some o => if f_open o then k o else (w, Raised ValueError)
  | None => (w, Raised ValueError)
  end.

Definition do_write (f : nat) (s : string) (w : world) : world * result unit :=
  in_use f w (λ o,
    if writable (f_mode o) then
      io w (λ w,
        (set_files <[f := PyFile (f_path o) (f_mode o) true (f_pos o) (f_buf o +:+ s) (f_delete o)]> w,
         Ok tt))
    else (w, Raised UnsupportedOperation)).

(** Hands the buffer of [o] to the operating system. *)
Definition flushed (f : nat) (o : pyfile) (still_open : bool) (w : world) : world :=
  set_files <[f := PyFile (f_path o) (f_mode o) still_open
                     (f_pos o + String.length (f_buf o)) EmptyString (f_delete o)]>
    (set_fs (write_at (f_path o) (f_pos o) (f_buf o)) w).

Definition do_flush (f : nat) (w : world) : world * result unit :=
  in_use f w (λ o, io w (λ w, (flushed f o true w, Ok tt))).

Definition do_read (f : nat) (w : world) : world * result string :=
  in_use f w (λ o,
    if readable (f_mode o) then
      io w (λ w,
        let w := flushed f o true w in
        let data := match fs w !! f_path o with
                    | Some (File _ data) => data
                    | _ => EmptyString
                    end in
        let rest := str_drop (f_pos o + String.length (f_buf o)) data in
        (set_files <[f := PyFile (f_path o) (f_mode o) true (String.length data)
                            EmptyString (f_delete o)]> w,
         Ok (if text_mode (f_mode o) then Py.universal_newlines rest else rest)))
    else (w, Raised UnsupportedOperation)).

(** Closing flushes, and a [delete=True] temporary then unlinks its
    name; a name that has meanwhile become a directory cannot be
    unlinked. *)
Definition do_close (f : nat) (w : world) : world * result unit :=
  match files w !! f with
  | Some o =>
      let w := if f_open o then flushed f o false w else w in
      if f_delete o then
        if is_dir (fs w !! f_path o) then (w, Raised IsADirectoryError)
        else (set_fs (unlink_quiet (f_path o)) w, Ok tt)
      else (w, Ok tt)
  | None => (w, Raised ValueError)
  end.

(** Under reference counting an object is finalised as soon as nothing
    refers to it; a file object closes itself then, and what its
    finaliser raises is not propagated. *)
Definition do_del (f : nat) (w : world) : world * result unit :=
  ((do_close f w).1, Ok tt).

Definition do_exists (p : string) (w : world) : world * result bool :=
  (w, Ok (bool_decide (is_Some (fs w !! p)))).

Definition do_remove (p : string) (w : world) : world * result unit :=
  match fs w !! p with
  | Some (File _ _) => (set_fs (delete p) w, Ok tt)
  | Some (Dir _) => (w, Raised IsADirectoryError)
  | None => (w, Raised FileNotFoundError)
  end.

Definition do_listdir (d : string) (w : world) : world * result (list string) :=
  io w (λ w,
    match fs w !! d with
    | Some (Dir _) => (w, Ok (listdir d (fs w)))
    | Some (File _ _) => (w, Raised NotADirectoryError)
    | None => (w, Raised FileNotFoundError)
    end).

Definition do_chmod (p : string) (perm : N) (w : world) : world * result unit :=
  io w (λ w,
    match fs w !! p with
    | Some (File _ data) => (set_fs <[p := File perm data]> w, Ok tt)
    | Some (Dir _) => (set_fs <[p := Dir perm]> w, Ok tt)
    | None => (w, Raised FileNotFoundError)
    end).

(** ** The interpreter *)

Definition spawner := list string → world → world * result Subprocess.CompletedProcess.

Definition handle (spawn : spawner) {X : Type} (c : call X) : world → world * result X :=
  match c in call X return world → world * result X with
  | Print s => do_print s
  | NamedTemporaryFile m delete suffix => do_NamedTemporaryFile m delete suffix
  | TemporaryDirectory => do_TemporaryDirectory
  | Cleanup d => do_cleanup d
  | Open p m => do_open p m
  | Write f s => do_write f s
  | Flush f => do_flush f
  | Read f => do_read f
  | Close f => do_close f
  | Del f => do_del f
  | OsPathExists p => do_exists p
  | OsRemove p => do_remove p
  | OsListdir d => do_listdir d
  | OsChmod p perm => do_chmod p perm
  | SysExecutable => λ w, (w, Ok (executable w))
  | SubprocessRun argv => spawn argv
  | SysExit code => λ w, (w, Raised (SystemExit code))
  end.

Fixpoint run_with (spawn : spawner) {A : Type} (p : prog A) (w : world) : world * result A :=
  match p with
  | Ret a => (w, Ok a)
  | Call c k =>
      match handle spawn c w with
      | (w', Ok x) => run_with spawn (k x) w'
      | (w', Raised e) => (w', Raised e)
      end
  | TryFinally body final k =>
      match run_with spawn body w with
      | (w1, r) =>
          match run_with spawn final w1 with
          | (w2, Raised e) => (w2, Raised e)
          | (w2, Ok _) =>
              match r with
              | Ok b => run_with spawn (k b) w2
              | Raised e => (w2, Raised e)
              end
          end
      end
  end.

(** ** The generated script and the interpreter that runs it *)

(** Lines 56-60: the text written to the temporary script. *)
Definition temp_script_source : string :=
  "#!/usr/bin/env python3" +:+ Py.nl +:+
  "import sys" +:+ Py.nl +:+
  "print(f" +:+ Py.dq +:+ "Temporary script running with args: {sys.argv[1:]}" +:+ Py.dq +:+ ")" +:+ Py.nl +:+
  "sys.exit(0)" +:+ Py.nl.

(** The same four lines as a program over [sys.argv]. *)
Definition temp_script (argv : list string) : prog unit :=
  do (Print ("Temporary script running with args: " +:+ Py.repr_list (drop 1 argv))) ;;
  Call (SysExit 0) (λ never : Empty_set, match never with end).

(** The programs the interpreter of this model can load, by their text. *)
Definition python_load (source : string) : option (list string → prog unit) :=
  if decide (source = temp_script_source) then Some temp_script else None.

(** A process of its own has no [subprocess] of this model. *)
Definition no_spawn : spawner := λ _ w, (w, Raised Unmodelled).

(** The status a Python process exits with. *)
Definition exit_status {A : Type} (r : result A) : Z :=
  match r with
  | Ok _ => 0
  | Raised (SystemExit code) => code `mod` 256
  | Raised _ => 1
  end.

(** [subprocess.run([sys.executable, script, *args], capture_output=True,
    text=True)]: starting the process can fail; the child shares the
    file system and the environment's faults, has its own file objects
    and writes to a pipe.  An interpreter that cannot open its script
    exits with status 2.  Without [check=True] the call returns whatever
    the status is. *)
Definition python : spawner := λ argv w,
  io w (λ w,
    match argv with
    | exe :: script :: args =>
        if decide (exe = executable w) then
          match fs w !! script with
          | Some (File _ source) =>
              match python_load source with
              | Some main =>
                  let child := World (fs w) [] EmptyString (tmpdir w) exe (rng w) (faults w) in
                  let (c, r) := run_with no_spawn (main (script :: args)) child in
                  (World (fs c) (files w) (stdout w) (tmpdir w) (executable w) (rng c) (faults c),
                   Ok (Subprocess.Completed argv (exit_status r) (stdout c)))
              | None => (w, Raised Unmodelled)
              end
          | _ => (w, Ok (Subprocess.Completed argv 2 EmptyString))
          end
        else (w, Raised Unmodelled)
    | _ => (w, Raised Unmodelled)
    end).

Definition run {A : Type} (p : prog A) (w : world) : world * result A :=
  run_with python p w.

(** ** The script *)

(** *** Example 1: context manager (lines 9-18) *)

Definition example1_data : string :=
  "Sample data" +:+ Py.nl +:+ "Line 1" +:+ Py.nl +:+ "Line 2" +:+ Py.nl.

(** The body of the [with] of line 10; its value is what
    [read_f.read()] gave. *)
Definition example1_body (f : tmpfile) : prog string :=
  let temp_file := name f in
  do (Write (file f) example1_data) ;;
  do (Flush (file f)) ;;
  do (Print ("  Created: " +:+ temp_file)) ;;
  with_ (Open temp_file mode_r) Close (λ read_f,
    content ← do (Read read_f);
    do (Print ("  Content: " +:+ content)) ;;
    Ret content).

Definition example1_scope : prog string :=
  with_ (NamedTemporaryFile mode_w true ".txt") (λ f, Close (file f)) example1_body.

Definition example1 : prog string :=
  do (Print "✓ Example 1: Temporary file with context manager") ;;
  content ← example1_scope;
  do (Print ("  Auto-cleaned up on exit" +:+ Py.nl)) ;;
  Ret content.

(** *** Example 2: manual cleanup with try-finally (lines 21-34) *)

Definition example2_data : string := "Manual cleanup example" +:+ Py.nl.

(** Line 22: the file object is used for its [name] only and is not
    bound, so its last reference goes at the end of the statement. *)
Definition example2_create : prog string :=
  f ← do (NamedTemporaryFile mode_wb_plus false ".txt");
  do (Del (file f)) ;;
  Ret (name f).

Definition example2_body (temp_file : string) : prog string :=
  do (Print ("  Created: " +:+ temp_file)) ;;
  with_ (Open temp_file mode_w) Close (λ f, do (Write f example2_data)) ;;
  with_ (Open temp_file mode_r) Close (λ f,
    content ← do (Read f);
    do (Print ("  Content: " +:+ content)) ;;
    Ret content).

Definition example2_finally (temp_file : string) : prog unit :=
  present ← do (OsPathExists temp_file);
  if present : bool then
    do (OsRemove temp_file) ;;
    do (Print ("  Manually cleaned up" +:+ Py.nl))
  else Ret tt.

Definition example2 : prog string :=
  do (Print "✓ Example 2: Manual cleanup with try-finally") ;;
  temp_file ← example2_create;
  try_finally (example2_body temp_file) (example2_finally temp_file).

(** *** Example 3: temporary directory (lines 37-50) *)

Definition example3_body (temp_dir : string) : prog (list string) :=
  do (Print ("  Created: " +:+ temp_dir)) ;;
  for_ (range 3) (λ i,
    let file_path := Path.join temp_dir ("file" +:+ Py.str_nat i +:+ ".txt") in
    with_ (Open file_path mode_w) Close (λ f,
      do (Write f ("File " +:+ Py.str_nat i +:+ " content" +:+ Py.nl)))) ;;
  files ← do (OsListdir temp_dir);
  do (Print ("  Files created: " +:+ Py.repr_list files)) ;;
  Ret files.

Definition example3_scope : prog (list string) :=
  with_ TemporaryDirectory Cleanup example3_body.

Definition example3 : prog (list string) :=
  do (Print "✓ Example 3: Temporary directory") ;;
  files ← example3_scope;
  do (Print ("  Directory auto-cleaned up" +:+ Py.nl)) ;;
  Ret files.

(** *** Example 4: temporary script (lines 53-70) *)

Definition example4_create : prog string :=
  with_ (NamedTemporaryFile mode_w false ".py") (λ f, Close (file f)) (λ f,
    let temp_script := name f in
    do (Write (file f) temp_script_source) ;;
    Ret temp_script).

Definition example4_body (temp_script : string) : prog Subprocess.CompletedProcess :=
  do (OsChmod temp_script 493) ;;                       (* 0o755 *)
  python3 ← do SysExecutable;
  result ← do (SubprocessRun [python3; temp_script; "arg1"; "arg2"]);
  do (Print ("  " +:+ Py.strip (Subprocess.stdout result) +:+ Py.nl)) ;;
  Ret result.

Definition example4_finally (temp_script : string) : prog unit :=
  present ← do (OsPathExists temp_script);
  if present : bool then do (OsRemove temp_script) else Ret tt.

Definition example4 : prog Subprocess.CompletedProcess :=
  do (Print "✓ Example 4: Temporary script") ;;
  temp_script ← example4_create;
  try_finally (example4_body temp_script) (example4_finally temp_script).

(** *** Example 5: manual deletion (lines 73-83) *)

Definition example5_create : prog string :=
  temp_file ← do (NamedTemporaryFile mode_wb_plus false ".txt");
  let temp_path := name temp_file in
  do (Write (file temp_file) ("Binary data example" +:+ Py.nl)) ;;
  do (Close (file temp_file)) ;;
  Ret temp_path.

(** Lines 79-83; the value is the pair of answers of the two existence
    checks. *)
Definition example5_remove (temp_path : string) : prog (bool * bool) :=
  before ← do (OsPathExists temp_path);
  do (Print ("  File persists: " +:+ Py.str_bool before)) ;;
  do (OsRemove temp_path) ;;
  after ← do (OsPathExists temp_path);
  do (Print ("  After removal: " +:+ Py.str_bool after +:+ Py.nl)) ;;
  Ret (before, after).

Definition example5 : prog (bool * bool) :=
  do (Print "✓ Example 5: NamedTemporaryFile with manual deletion") ;;
  temp_path ← example5_create;
  example5_remove temp_path.

Definition script : prog unit :=
  example1 ;; example2 ;; example3 ;; example4 ;; example5 ;;
  do (Print "✓ All examples completed").


(** ** Predicates on programs and worlds *)

(** [guarded known p]: every [os.remove(q)] of [p] is reached only
    through the [True] answer of an [os.path.exists(q)], with no other
    removal of [q] in between.  [known] lists the paths for which that
    answer has been given on the way.  Nothing is carried across a
    [try] statement. *)
Fixpoint guarded {A : Type} (known : list string) (p : prog A) : Prop :=
  match p with
  | Ret _ => True
  | Call c k =>
      match c in call X return (X → prog A) → Prop with
      | OsPathExists q => λ k,
          guarded (q :: known) (k true) ∧
          guarded (filter (λ x, x ≠ q) known) (k false)
      | OsRemove q => λ k,
          q ∈ known ∧ guarded (filter (λ x, x ≠ q) known) (k tt)
      | _ => λ k, ∀ x, guarded known (k x)
      end k
  | TryFinally body final k =>
      guarded known body ∧ guarded [] final ∧ ∀ b, guarded [] (k b)
  end.

(** Every call of [p] is one of the [allowed] ones. *)
Fixpoint only (allowed : ∀ X, call X → Prop) {A : Type} (p : prog A) : Prop :=
  match p with
  | Ret _ => True
  | Call c k => allowed _ c ∧ ∀ x, only allowed (k x)
  | TryFinally body final k =>
      only allowed body ∧ only allowed final ∧ ∀ b, only allowed (k b)
  end.

Definition makes_no_directory (X : Type) (c : call X) : Prop :=
  match c with
  | TemporaryDirectory => False
  | _ => True
  end.

(** From [w] to [w'], a file object keeps its path and its [delete]
    flag and does not reopen, and a name that is not a directory does
    not become one. *)
Definition settled (w w' : world) : Prop :=
  (∀ h o, files w !! h = Some o →
     ∃ o', files w' !! h = Some o' ∧ f_path o' = f_path o ∧
           f_delete o' = f_delete o ∧ (f_open o = false → f_open o' = false)) ∧
  (∀ q, is_dir (fs w !! q) = false → is_dir (fs w' !! q) = false).

(** Every entry lies in a directory that exists. *)
Definition parents_exist (m : gmap string node) : Prop :=
  map_Forall (λ p _, Forall (λ q, q = EmptyString ∨ is_dir (m !! q) = true)
                            (Path.ancestors p)) m.

(** The names [tempfile] draws have no separator in them. *)
Definition plain_names (names : list string) : Prop :=
  Forall (λ r, Py.occurs "/" r = false) names.

(** The next [k] input/output calls succeed. *)
Definition calls_succeed (k : nat) (schedule : list nat) : Prop :=
  match schedule with
  | [] => True
  | n :: _ => (k ≤ n)%nat
  end.

(** The schedule once [k] calls have succeeded. *)
Definition after_calls (k : nat) (schedule : list nat) : list nat :=
  match schedule with
  | [] => []
  | n :: l => (n - k) :: l
  end.

(** A small world to run the script in: an empty temporary directory
    and a supply of names. *)
Definition small_world (schedule : list nat) : world :=
  World {[ "/tmp" := Dir 511 ]} [] EmptyString "/tmp" "/usr/bin/python3"
        ["k3x9q2ab"; "w8_fz01c"; "p5m2yy7d"; "a0b1c2d3"; "zz9_8x7y"] schedule.

(** ** Predicates on runs *)

(** What a sequence of [print] calls adds to the standard output. *)
Fixpoint printed (lines : list string) : string :=
  match lines with
  | [] => EmptyString
  | s :: lines' => s +:+ Py.nl +:+ printed lines'
  end.

(** A file object that has been closed. *)
Definition closed (o : pyfile) : Prop := f_open o = false.

(** From [w] to [w'] nothing is left behind: the file system is what it
    was, and the file objects made on the way are closed. *)
Definition cleaned_up (w w' : world) : Prop :=
  fs w' = fs w ∧ ∃ new, files w' = files w ++ new ∧ Forall closed new.

(** How a run from [w] may end: with nothing left behind when it
    returned; when it raised, with at most one new file, and then the
    error is an [OSError]. *)
Definition no_more_than_one_file_left {A : Type} (w w' : world) (r : result A) : Prop :=
  match r with
  | Ok _ => cleaned_up w w'
  | Raised e =>
      fs w' = fs w ∨
      ∃ p data, e = OSError ∧ fs w !! p = None ∧ fs w' = <[p := File 384 data]> (fs w)
  end.

(** The names still to be drawn are among those there were. *)
Definition draws_from (w w' : world) : Prop := rng w' ⊆ rng w.

(** The lines the script prints when nothing fails, given the names it
    drew for the files of examples 1 and 2 and for the directory of
    example 3, and the listing [os.listdir] gave. *)
Definition transcript (p1 p2 d : string) (listing : list string) : list string :=
  [ "✓ Example 1: Temporary file with context manager";
    "  Created: " +:+ p1;
    "  Content: " +:+ example1_data;
    "  Auto-cleaned up on exit" +:+ Py.nl;
    "✓ Example 2: Manual cleanup with try-finally";
    "  Created: " +:+ p2;
    "  Content: " +:+ example2_data;
    "  Manually cleaned up" +:+ Py.nl;
    "✓ Example 3: Temporary directory";
    "  Created: " +:+ d;
    "  Files created: " +:+ Py.repr_list listing;
    "  Directory auto-cleaned up" +:+ Py.nl;
    "✓ Example 4: Temporary script";
    "  Temporary script running with args: ['arg1', 'arg2']" +:+ Py.nl;
    "✓ Example 5: NamedTemporaryFile with manual deletion";
    "  File persists: True";
    "  After removal: False" +:+ Py.nl;
    "✓ All examples completed" ].

(** * Properties *)

(** ** Running programs *)

Lemma run_with_bind spawn {A B : Type} (p : prog A) (g : A → prog B) w :
  run_with spawn (p ≫= g) w =
  match run_with spawn p w with
  | (w', Ok a) => run_with spawn (g a) w'
  | (w', Raised e) => (w', Raised e)
  end.
Proof.
  revert B g w. induction p as [A a | A X c k IH | A C body IHb final IHf k IH]; intros B g w.
  - reflexivity.
  - simpl. destruct (handle spawn c w) as [w' [x | e]]; [apply IH | reflexivity].
  - simpl. destruct (run_with spawn body w) as [w1 r].
    destruct (run_with spawn final w1) as [w2 [[] | e]]; [ | reflexivity].
    destruct r as [b | e]; [apply IH | reflexivity].
Qed.

Lemma run_with_call spawn {A X : Type} (c : call X) (k : X → prog A) w :
  run_with spawn (Call c k) w =
  match handle spawn c w with
  | (w', Ok x) => run_with spawn (k x) w'
  | (w', Raised e) => (w', Raised e)
  end.
Proof. reflexivity. Qed.

Lemma run_with_ret spawn {A : Type} (a : A) w : run_with spawn (Ret a) w = (w, Ok a).
Proof. reflexivity. Qed.

Lemma run_with_try spawn {A B : Type} (body : prog B) final (k : B → prog A) w :
  run_with spawn (TryFinally body final k) w =
  match run_with spawn body w with
  | (w1, r) =>
      match run_with spawn final w1 with
      | (w2, Raised e) => (w2, Raised e)
      | (w2, Ok _) =>
          match r with
          | Ok b => run_with spawn (k b) w2
          | Raised e => (w2, Raised e)
          end
      end
  end.
Proof. reflexivity. Qed.

(** A [with] block runs its exit call on the world its body left,
    however the body ended. *)
Lemma run_with_with spawn {R A : Type} (enter : call R) exit (body : R → prog A) w w1 r :
  handle spawn enter w = (w1, Ok r) →
  run_with spawn (with_ enter exit body) w =
  match run_with spawn (body r) w1 with
  | (w2, res) =>
      match handle spawn (exit r) w2 with
      | (w3, Raised e) => (w3, Raised e)
      | (w3, Ok _) => (w3, res)
      end
  end.
Proof.
  intros He. unfold with_. rewrite run_with_call, He, run_with_try.
  destruct (run_with spawn (body r) w1) as [w2 res].
  unfold do. rewrite run_with_call.
  destruct (handle spawn (exit r) w2) as [w3 [[] | e]]; [ | reflexivity].
  simpl. by destruct res.
Qed.

(** ** Paths and directory listings *)

Lemma append_cons c s t : String c s +:+ t = String c (s +:+ t).
Proof. reflexivity. Qed.

Lemma append_assoc s t u : (s +:+ t) +:+ u = s +:+ t +:+ u.
Proof.
  induction s as [ | c s IH]; [done | ]. rewrite !append_cons. by f_equal.
Qed.

Lemma occurs_cons c c' s :
  Py.occurs c (String c' s) = if Ascii.eqb c c' then true else Py.occurs c s.
Proof. reflexivity. Qed.

Lemma ancestors_cons c p :
  Path.ancestors (String c p) =
  (if Ascii.eqb "/" c then [EmptyString] else []) ++ (String c <$> Path.ancestors p).
Proof. reflexivity. Qed.

Lemma occurs_append c s t : Py.occurs c (s +:+ t) = Py.occurs c s || Py.occurs c t.
Proof.
  induction s as [ | c' s IH]; [done | ]. rewrite append_cons, !occurs_cons.
  by destruct (Ascii.eqb c c').
Qed.

Lemma ends_with_slash_occurs s : Path.ends_with_slash s = true → Py.occurs "/" s = true.
Proof.
  induction s as [ | c s IH]; [done | ].
  destruct s as [ | c' s].
  - simpl. intros H. apply Ascii.eqb_eq in H as ->. done.
  - intros H. change (Py.occurs "/" (String c (String c' s)))
      with (if Ascii.eqb "/" c then true else Py.occurs "/" (String c' s)).
    rewrite IH by exact H. by destruct (Ascii.eqb "/" c).
Qed.

Lemma ends_with_slash_append s c t :
  Path.ends_with_slash (s +:+ String c t) = Path.ends_with_slash (String c t).
Proof.
  induction s as [ | c' s IH]; [done | ]. rewrite append_cons.
  change (Path.ends_with_slash (String c' (s +:+ String c t)))
    with (match s +:+ String c t with
          | EmptyString => Ascii.eqb c' "/"
          | _ => Path.ends_with_slash (s +:+ String c t)
          end).
  destruct (s +:+ String c t) eqn:E; [ | done].
  destruct s; discriminate E.
Qed.

Lemma strip_prefix_append a b : Path.strip_prefix a (a +:+ b) = Some b.
Proof.
  induction a as [ | c a IH]; [done | ]. rewrite append_cons. simpl.
  by rewrite Ascii.eqb_refl.
Qed.

Lemma strip_prefix_Some a p b : Path.strip_prefix a p = Some b → p = a +:+ b.
Proof.
  revert p. induction a as [ | c a IH]; intros p; simpl.
  - by intros [= ->].
  - destruct p as [ | c' p]; [done | ].
    destruct (Ascii.eqb c c') eqn:E; [ | done].
    apply Ascii.eqb_eq in E as <-. intros H. rewrite append_cons. f_equal. by apply IH.
Qed.

Lemma strip_prefix_longer d c s : Path.strip_prefix (d +:+ String c s) d = None.
Proof.
  induction d as [ | c' d IH]; [done | ]. rewrite append_cons. simpl.
  by rewrite Ascii.eqb_refl.
Qed.

Lemma ancestors_plain n : Py.occurs "/" n = false → Path.ancestors n = [].
Proof.
  induction n as [ | c n IH]; [done | ]. rewrite occurs_cons, ancestors_cons.
  destruct (Ascii.eqb "/" c); [done | ].
  intros H. by rewrite IH.
Qed.

Lemma ancestors_below d r : d ∈ Path.ancestors (d +:+ "/" +:+ r).
Proof.
  induction d as [ | c d IH].
  - apply list_elem_of_here.
  - rewrite append_cons, ancestors_cons. apply elem_of_app. right.
    apply list_elem_of_fmap. by exists d.
Qed.

Lemma parent_child d n : Py.occurs "/" n = false → Path.parent (d +:+ "/" +:+ n) = Some d.
Proof.
  intros Hn. unfold Path.parent. induction d as [ | c d IH].
  - change (EmptyString +:+ "/" +:+ n) with (String "/" n).
    rewrite ancestors_cons, ancestors_plain by done. done.
  - rewrite append_cons, ancestors_cons, last_app, fmap_last, IH. done.
Qed.

Lemma child_name_Some d p n :
  Path.child_name d p = Some n ↔
  p = d +:+ "/" +:+ n ∧ Py.occurs "/" n = false ∧ n ≠ EmptyString.
Proof.
  unfold Path.child_name. split.
  - destruct (Path.strip_prefix (d +:+ "/") p) as [n' | ] eqn:Hs; [ | done].
    apply strip_prefix_Some in Hs as ->.
    destruct (Py.occurs "/" n') eqn:Ho; [done | ].
    destruct n' as [ | c n']; [done | ]. simpl. intros [= <-].
    by rewrite append_assoc.
  - intros (-> & Ho & Hn). rewrite <- append_assoc, strip_prefix_append, Ho.
    by destruct n.
Qed.

Lemma child_name_self d : Path.child_name d d = None.
Proof. unfold Path.child_name. by rewrite strip_prefix_longer. Qed.

(** With every parent in place, a name that does not exist has nothing
    below it. *)
Lemma nothing_below_missing (m : gmap string node) d p :
  parents_exist m → m !! d = None → d ≠ EmptyString →
  d ∈ Path.ancestors p → m !! p = None.
Proof.
  intros Hwf Hd Hne Hin. destruct (m !! p) as [nd | ] eqn:Hp; [ | done].
  specialize (Hwf p nd Hp). simpl in Hwf.
  rewrite Forall_forall in Hwf. destruct (Hwf d Hin) as [-> | Hdir]; [done | ].
  by rewrite Hd in Hdir.
Qed.

Lemma listdir_empty (m : gmap string node) d :
  (∀ p, d ∈ Path.ancestors p → m !! p = None) → listdir d m = [].
Proof.
  intros Hnone. unfold listdir.
  assert (∀ kv, kv ∈ map_to_list m → Path.child_name d kv.1 = None) as Hall.
  { intros [p nd] Hin. apply elem_of_map_to_list in Hin. simpl.
    destruct (Path.child_name d p) as [n | ] eqn:Hc; [ | done].
    apply child_name_Some in Hc as (-> & _ & _).
    by rewrite (Hnone _ (ancestors_below d n)) in Hin. }
  induction (map_to_list m) as [ | kv l IH]; [done | ]. simpl.
  rewrite (Hall kv) by apply list_elem_of_here.
  apply IH. intros kv' Hin. apply Hall. by apply list_elem_of_further.
Qed.

Lemma listdir_insert (m : gmap string node) d p nd :
  m !! p = None →
  listdir d (<[p := nd]> m) ≡ₚ
  match Path.child_name d p with Some n => [n] | None => [] end ++ listdir d m.
Proof.
  intros Hp. unfold listdir. rewrite (map_to_list_insert m p nd Hp). simpl.
  by destruct (Path.child_name d p).
Qed.

Lemma pick_name_shape (m : gmap string node) dir suffix names p rest :
  pick_name m dir suffix names = Some (p, rest) →
  ∃ r, r ∈ names ∧ p = Path.join dir ("tmp" +:+ r +:+ suffix).
Proof.
  induction names as [ | r names IH]; simpl; [done | ].
  destruct (m !! Path.join dir ("tmp" +:+ r +:+ suffix)) eqn:Hr.
  - intros H. destruct (IH H) as (r' & Hin & ->). exists r'.
    split; [by apply list_elem_of_further | done].
  - intros [= <- _]. exists r. split; [apply list_elem_of_here | done].
Qed.

Lemma length_zero s : (String.length s =? 0)%nat = true → s = EmptyString.
Proof. by destruct s. Qed.

(** The name of a temporary is not empty and does not end in a
    separator. *)
Lemma temporary_name_shape dir r suffix :
  Py.occurs "/" r = false → Py.occurs "/" suffix = false →
  let p := Path.join dir ("tmp" +:+ r +:+ suffix) in
  p ≠ EmptyString ∧ Path.ends_with_slash p = false.
Proof.
  intros Hr Hs p.
  assert (∃ y, p = y +:+ String "t" ("mp" +:+ r +:+ suffix)) as [y Hy].
  { unfold p, Path.join. change (Path.starts_with_slash ("tmp" +:+ r +:+ suffix)) with false.
    cbv iota. destruct (_ || _).
    - by exists dir.
    - exists (dir +:+ "/"). by rewrite append_assoc. }
  rewrite Hy. split.
  - by destruct y.
  - rewrite ends_with_slash_append.
    destruct (Path.ends_with_slash (String "t" ("mp" +:+ r +:+ suffix))) eqn:E; [ | done].
    apply ends_with_slash_occurs in E.
    change (String "t" ("mp" +:+ r +:+ suffix)) with ("tmp" +:+ r +:+ suffix) in E.
    rewrite !occurs_append, Hr, Hs in E. done.
Qed.

Lemma join_child d n :
  d ≠ EmptyString → Path.ends_with_slash d = false → Path.starts_with_slash n = false →
  Path.join d n = d +:+ "/" +:+ n.
Proof.
  intros Hd He Hn. unfold Path.join. rewrite Hn, He.
  destruct (String.length d =? 0)%nat eqn:E; [ | done].
  by apply length_zero in E.
Qed.

(** ** What no call undoes *)

Section Preservation.
Variable R : world → world → Prop.
Variable allowed : ∀ X, call X → Prop.
Variable spawn : spawner.
Hypothesis R_refl : ∀ w, R w w.
Hypothesis R_trans : ∀ w1 w2 w3, R w1 w2 → R w2 w3 → R w1 w3.
Hypothesis handle_R : ∀ X (c : call X) w, allowed X c → R w (handle spawn c w).1.

Lemma run_with_preserves {A : Type} (p : prog A) w :
  only allowed p → R w (run_with spawn p w).1.
Proof.
  revert w. induction p as [A a | A X c k IH | A C body IHb final IHf k IH]; intros w Hp.
  - apply R_refl.
  - destruct Hp as [Hc Hk]. rewrite run_with_call.
    pose proof (handle_R X c w Hc) as Hstep.
    destruct (handle spawn c w) as [w' [x | e]]; simpl in *; [ | done].
    eapply R_trans; [exact Hstep | by apply IH].
  - destruct Hp as (Hb & Hf & Hk). rewrite run_with_try.
    pose proof (IHb w Hb) as H1.
    destruct (run_with spawn body w) as [w1 r]; simpl in H1.
    pose proof (IHf w1 Hf) as H2.
    destruct (run_with spawn final w1) as [w2 [[] | e]]; simpl in H2.
    + destruct r as [b | e]; simpl.
      * eapply R_trans; [exact H1 | ]. eapply R_trans; [exact H2 | by apply IH].
      * by eapply R_trans.
    + by eapply R_trans.
Qed.
End Preservation.

Lemma settled_refl w : settled w w.
Proof. split; [ | done]. intros h o Ho. by exists o. Qed.

Lemma settled_trans w1 w2 w3 : settled w1 w2 → settled w2 w3 → settled w1 w3.
Proof.
  intros [Ha1 Hb1] [Ha2 Hb2]. split.
  - intros h o Ho. destruct (Ha1 h o Ho) as (o' & Ho' & Hp & Hd & Hc).
    destruct (Ha2 h o' Ho') as (o'' & Ho'' & Hp' & Hd' & Hc').
    exists o''. repeat split; [done | congruence | congruence | auto].
  - auto.
Qed.

Lemma is_dir_insert_file (m : gmap string node) p perm data q :
  is_dir (m !! q) = false → is_dir (<[p := File perm data]> m !! q) = false.
Proof.
  intros H. destruct (decide (p = q)) as [-> | Hne].
  - by rewrite lookup_insert_eq.
  - by rewrite lookup_insert_ne.
Qed.

Lemma is_dir_delete (m : gmap string node) p q :
  is_dir (m !! q) = false → is_dir (delete p m !! q) = false.
Proof.
  intros H. destruct (decide (p = q)) as [-> | Hne].
  - by rewrite lookup_delete_eq.
  - by rewrite lookup_delete_ne.
Qed.

Lemma is_dir_write_at (m : gmap string node) p pos buf q :
  is_dir (write_at p pos buf m !! q) = is_dir (m !! q).
Proof.
  unfold write_at. destruct buf as [ | c buf]; [done | ].
  destruct (m !! p) as [[perm data | perm] | ] eqn:Hp; try done.
  destruct (decide (p = q)) as [-> | Hne].
  - by rewrite lookup_insert_eq, Hp.
  - by rewrite lookup_insert_ne.
Qed.

Lemma is_dir_unlink_quiet (m : gmap string node) p q :
  is_dir (m !! q) = false → is_dir (unlink_quiet p m !! q) = false.
Proof.
  unfold unlink_quiet. destruct (m !! p) as [[perm data | perm] | ]; try done.
  apply is_dir_delete.
Qed.

Lemma is_dir_rmtree (m : gmap string node) d q :
  is_dir (m !! q) = false → is_dir (rmtree d m !! q) = false.
Proof.
  intros H. unfold rmtree.
  destruct (filter _ m !! q) as [nd | ] eqn:Hq; [ | done].
  apply map_lookup_filter_Some in Hq as [Hq _]. by rewrite Hq in H.
Qed.

Lemma is_dir_chmod (m : gmap string node) p perm q nd :
  m !! p = Some nd →
  is_dir (<[p := match nd with File _ data => File perm data | Dir _ => Dir perm end]> m !! q)
  = is_dir (m !! q).
Proof.
  intros Hp. destruct (decide (p = q)) as [-> | Hne].
  - rewrite lookup_insert_eq, Hp. by destruct nd.
  - by rewrite lookup_insert_ne.
Qed.

Lemma pop_fault_same w : fs (pop_fault w).2 = fs w ∧ files (pop_fault w).2 = files w.
Proof. unfold pop_fault. by destruct (faults w) as [ | [ | n] l]. Qed.

Lemma settled_pop_fault w : settled w (pop_fault w).2.
Proof.
  destruct (pop_fault_same w) as [Hfs Hfiles]. split.
  - intros h o Ho. exists o. by rewrite Hfiles.
  - intros q. by rewrite Hfs.
Qed.

Lemma settled_io {X : Type} w (k : world → world * result X) :
  (∀ w1, fs w1 = fs w → files w1 = files w → settled w1 (k w1).1) →
  settled w (io w k).1.
Proof.
  intros Hk. unfold io. pose proof (settled_pop_fault w) as Hp.
  destruct (pop_fault_same w) as [Hfs Hfiles].
  destruct (pop_fault w) as [[] w']; simpl in *; [done | ].
  eapply settled_trans; [exact Hp | by apply Hk].
Qed.

(** Replacing a file object by one with the same path and flag, which
    is open only if the old one was. *)
Lemma settled_update w f o o1 (g : gmap string node → gmap string node) :
  files w !! f = Some o →
  f_path o1 = f_path o → f_delete o1 = f_delete o →
  (f_open o = false → f_open o1 = false) →
  (∀ q, is_dir (fs w !! q) = false → is_dir (g (fs w) !! q) = false) →
  settled w (set_files <[f := o1]> (set_fs g w)).
Proof.
  intros Hf Hp Hd Hc Hg. split; simpl; [ | done].
  intros h o' Ho'. destruct (decide (f = h)) as [-> | Hne].
  - exists o1. rewrite list_lookup_insert_eq by (by eapply lookup_lt_Some).
    assert (o' = o) as -> by congruence. done.
  - exists o'. by rewrite list_lookup_insert_ne.
Qed.

Lemma settled_append w o1 (g : gmap string node → gmap string node) :
  (∀ q, is_dir (fs w !! q) = false → is_dir (g (fs w) !! q) = false) →
  settled w (set_files (λ l, l ++ [o1]) (set_fs g w)).
Proof.
  intros Hg. split; simpl; [ | done].
  intros h o Ho. exists o. split; [by apply lookup_app_l_Some | done].
Qed.

Lemma settled_fs w (g : gmap string node → gmap string node) :
  (∀ q, is_dir (fs w !! q) = false → is_dir (g (fs w) !! q) = false) →
  settled w (set_fs g w).
Proof. intros Hg. split; simpl; [ | done]. intros h o Ho. by exists o. Qed.

Lemma settled_flushed w f o b :
  files w !! f = Some o → (f_open o = false → b = false) →
  settled w (flushed f o b w).
Proof.
  intros Hf Hb. unfold flushed. apply settled_update with (o := o); try done.
  intros q. by rewrite is_dir_write_at.
Qed.

Lemma settled_close f w : settled w (do_close f w).1.
Proof.
  unfold do_close. destruct (files w !! f) as [o | ] eqn:Hf; [ | apply settled_refl].
  assert (settled w (if f_open o then flushed f o false w else w)) as H1.
  { destruct (f_open o); [by apply settled_flushed | apply settled_refl]. }
  set (w1 := if f_open o then flushed f o false w else w) in *.
  destruct (f_delete o); [ | done].
  destruct (is_dir (fs w1 !! f_path o)); [done | ]. simpl.
  eapply settled_trans; [exact H1 | ]. apply settled_fs, is_dir_unlink_quiet.
Qed.

Lemma settled_handle spawn {X : Type} (c : call X) w :
  (∀ argv w, settled w (spawn argv w).1) →
  makes_no_directory X c → settled w (handle spawn c w).1.
Proof.
  intros Hspawn Hc. destruct c; simpl in *; try done; try apply settled_refl.
  - apply settled_io. intros w1 _ _. by apply (settled_fs w1 id).
  - unfold do_NamedTemporaryFile. destruct (is_dir _); [ | apply settled_refl].
    destruct (pick_name _ _ _ _) as [[p names] | ]; simpl.
    + apply (settled_append w _ <[p := File 384 EmptyString]>).
      intros q. apply is_dir_insert_file.
    + by apply (settled_fs w id).
  - apply settled_fs. intros q. apply is_dir_rmtree.
  - apply settled_io. intros w1 _ _.
    destruct (fs w1 !! p) as [[perm data | perm] | ] eqn:Hp; try apply settled_refl.
    + destruct (writable mode).
      * apply settled_append. intros q. apply is_dir_insert_file.
      * by apply (settled_append w1 _ id).
    + destruct (writable mode && parent_ok p (fs w1)); [ | apply settled_refl].
      apply settled_append. intros q. apply is_dir_insert_file.
  - unfold do_write, in_use. destruct (files w !! f) as [o | ] eqn:Hf; [ | apply settled_refl].
    destruct (f_open o) eqn:Ho; [ | apply settled_refl].
    destruct (writable _); [ | apply settled_refl].
    apply settled_io. intros w1 _ Hfiles. simpl.
    apply (settled_update w1 f o _ id); try done; [congruence | simpl; congruence].
  - unfold do_flush, in_use. destruct (files w !! f) as [o | ] eqn:Hf; [ | apply settled_refl].
    destruct (f_open o) eqn:Ho; [ | apply settled_refl].
    apply settled_io. intros w1 _ Hfiles. simpl.
    apply settled_flushed; congruence.
  - unfold do_read, in_use. destruct (files w !! f) as [o | ] eqn:Hf; [ | apply settled_refl].
    destruct (f_open o) eqn:Ho; [ | apply settled_refl].
    destruct (readable _); [ | apply settled_refl].
    apply settled_io. intros w1 _ Hfiles. simpl.
    eapply settled_trans; [apply (settled_flushed w1 f o true); congruence | ].
    set (w2 := flushed f o true w1).
    assert (files w2 !! f = Some (PyFile (f_path o) (f_mode o) true
              (f_pos o + String.length (f_buf o)) EmptyString (f_delete o))) as Hf2.
    { unfold w2, flushed. simpl. apply list_lookup_insert_eq.
      rewrite Hfiles. by eapply lookup_lt_Some. }
    by apply (settled_update w2 f _ _ id Hf2).
  - apply settled_close.
  - apply settled_close.
  - unfold do_remove. destruct (fs w !! p) as [[perm data | perm] | ]; try apply settled_refl.
    apply settled_fs. intros q. apply is_dir_delete.
  - apply settled_io. intros w1 _ _.
    destruct (fs w1 !! d) as [[perm data | perm] | ]; apply settled_refl.
  - apply settled_io. intros w1 _ _.
    destruct (fs w1 !! p) as [[perm0 data | perm0] | ] eqn:Hp; try apply settled_refl.
    + apply settled_fs. intros q.
      by rewrite (is_dir_chmod (fs w1) p perm q (File perm0 data)).
    + apply settled_fs. intros q.
      by rewrite (is_dir_chmod (fs w1) p perm q (Dir perm0)).
Qed.

Lemma settled_run_with spawn {A : Type} (p : prog A) w :
  (∀ argv w, settled w (spawn argv w).1) →
  only makes_no_directory p → settled w (run_with spawn p w).1.
Proof.
  intros Hspawn. apply run_with_preserves.
  - apply settled_refl.
  - apply settled_trans.
  - intros X c w1. by apply settled_handle.
Qed.

Lemma settled_python argv w : settled w (python argv w).1.
Proof.
  unfold python. apply settled_io. intros w1 _ _.
  destruct argv as [ | exe [ | script args]]; try apply settled_refl.
  destruct (decide _); [ | apply settled_refl].
  destruct (fs w1 !! script) as [[perm source | perm] | ]; try apply settled_refl.
  unfold python_load. destruct (decide _); [ | apply settled_refl].
  set (child := World _ _ _ _ _ _ _).
  assert (settled child (run_with no_spawn (temp_script (script :: args)) child).1) as [_ Hc].
  { apply settled_run_with; [intros; apply settled_refl | ]. simpl. intuition. }
  destruct (run_with no_spawn _ child) as [c r]. simpl in *.
  split; simpl; [ | done]. intros h o Ho. by exists o.
Qed.

Lemma settled_run {A : Type} (p : prog A) w :
  only makes_no_directory p → settled w (run p w).1.
Proof. apply settled_run_with, settled_python. Qed.

(** ** Scoped temporaries *)

Lemma unlink_quiet_lookup (m : gmap string node) p :
  is_dir (m !! p) = false → unlink_quiet p m !! p = None.
Proof.
  unfold unlink_quiet. intros H.
  destruct (m !! p) as [[perm data | perm] | ] eqn:Hp; try done.
  apply lookup_delete_eq.
Qed.

Lemma rmtree_lookup (m : gmap string node) d p :
  Path.within d p = true → rmtree d m !! p = None.
Proof.
  intros H. unfold rmtree. apply map_lookup_filter_None. right.
  intros nd _. simpl. by rewrite H.
Qed.

(** Closing a [delete=True] temporary whose name is not a directory
    leaves no such name. *)
Lemma do_close_deletes f o w w' r :
  files w !! f = Some o → f_delete o = true → is_dir (fs w !! f_path o) = false →
  do_close f w = (w', r) → fs w' !! f_path o = None.
Proof.
  intros Hf Hd Hn. unfold do_close. rewrite Hf, Hd.
  set (w1 := if f_open o then flushed f o false w else w).
  assert (is_dir (fs w1 !! f_path o) = false) as H1.
  { unfold w1. destruct (f_open o); [ | done]. simpl. by rewrite is_dir_write_at. }
  rewrite H1. intros [= <- _]. simpl. by apply unlink_quiet_lookup.
Qed.

Lemma do_NamedTemporaryFile_ok m delete suffix w wt f :
  do_NamedTemporaryFile m delete suffix w = (wt, Ok f) →
  ∃ names,
    pick_name (fs w) (tmpdir w) suffix (rng w) = Some (name f, names) ∧
    is_dir (fs w !! tmpdir w) = true ∧
    file f = length (files w) ∧
    wt = World (<[name f := File 384 EmptyString]> (fs w))
               (files w ++ [PyFile (name f) m true 0 EmptyString delete])
               (stdout w) (tmpdir w) (executable w) names (faults w).
Proof.
  unfold do_NamedTemporaryFile. destruct (is_dir _) eqn:Hd; [ | done].
  destruct (pick_name _ _ _ _) as [[p names] | ]; [ | done].
  intros [= <- <-]. by exists names.
Qed.

Lemma do_TemporaryDirectory_ok w wd d :
  do_TemporaryDirectory w = (wd, Ok d) →
  ∃ names,
    pick_name (fs w) (tmpdir w) EmptyString (rng w) = Some (d, names) ∧
    is_dir (fs w !! tmpdir w) = true ∧
    wd = World (<[d := Dir 448]> (fs w)) (files w) (stdout w) (tmpdir w)
               (executable w) names (faults w).
Proof.
  unfold do_TemporaryDirectory. destruct (is_dir _) eqn:Hd; [ | done].
  destruct (pick_name _ _ _ _) as [[p names] | ]; [ | done].
  intros [= <- <-]. by exists names.
Qed.

(** A [with NamedTemporaryFile(delete=True)] whose body makes no
    directory leaves no file behind, however the body ends. *)
Lemma with_NamedTemporaryFile_gone {A : Type} m suffix (body : tmpfile → prog A) w wt f w' r :
  (∀ f, only makes_no_directory (body f)) →
  do_NamedTemporaryFile m true suffix w = (wt, Ok f) →
  run (with_ (NamedTemporaryFile m true suffix) (λ f, Close (file f)) body) w = (w', r) →
  fs w' !! name f = None.
Proof.
  intros Hbody Hcreate. unfold run.
  rewrite (run_with_with python (NamedTemporaryFile m true suffix) _ body w wt f Hcreate).
  pose proof (settled_run (body f) wt (Hbody f)) as [Hobj Hdir]. unfold run in *.
  destruct (run_with python (body f) wt) as [w2 res]. simpl in *.
  apply do_NamedTemporaryFile_ok in Hcreate as (names & _ & _ & Hfile & ->). simpl in *.
  destruct (Hobj (file f) (PyFile (name f) m true 0 EmptyString true))
    as (o & Ho & Hpath & Hdel & _).
  { rewrite Hfile. by apply list_lookup_middle. }
  specialize (Hdir (name f)). rewrite lookup_insert_eq in Hdir. specialize (Hdir eq_refl).
  simpl in *. rewrite <- Hpath in *.
  destruct (do_close (file f) w2) as [w3 r3] eqn:Hclose.
  apply (do_close_deletes _ o) in Hclose; [ | done..].
  destruct r3 as [[] | e]; by intros [= <- _].
Qed.

(** A [with TemporaryDirectory()] leaves nothing of the directory
    behind, whatever its body does. *)
Lemma with_TemporaryDirectory_gone {A : Type} (body : string → prog A) w wd d w' r p :
  do_TemporaryDirectory w = (wd, Ok d) →
  run (with_ TemporaryDirectory Cleanup body) w = (w', r) →
  Path.within d p = true → fs w' !! p = None.
Proof.
  intros Hcreate. unfold run.
  rewrite (run_with_with python TemporaryDirectory _ body w wd d Hcreate).
  destruct (run_with python (body d) wd) as [w2 res]. simpl.
  intros [= <- _] Hp. simpl. by apply rmtree_lookup.
Qed.

(** C5: for each scoped temporary resource (the temporary file of
    example 1, the temporary directory of example 3) the path does not
    exist once the owning [with] block has been left, whether its body
    ended normally or raised: the statement holds for every fault
    schedule and every result [r].  For the directory it covers
    everything below it as well. *)
Theorem scoped_temporaries_are_gone :
  (∀ w wt f w' r,
     do_NamedTemporaryFile mode_w true ".txt" w = (wt, Ok f) →
     run example1_scope w = (w', r) →
     fs w' !! name f = None) ∧
  (∀ w wd temp_dir w' r,
     do_TemporaryDirectory w = (wd, Ok temp_dir) →
     run example3_scope w = (w', r) →
     ∀ p, Path.within temp_dir p = true → fs w' !! p = None).
Proof.
  split.
  - intros w wt f w' r Hcreate Hrun.
    eapply with_NamedTemporaryFile_gone; [ | exact Hcreate | exact Hrun].
    intros f0. simpl. intuition.
  - intros w wd temp_dir w' r Hcreate Hrun p Hp.
    by eapply with_TemporaryDirectory_gone.
Qed.

(** ** Guarded deletion *)

Lemma run_example2_finally_absent w p :
  fs w !! p = None → run (example2_finally p) w = (w, Ok tt).
Proof.
  intros Hp. unfold run. simpl. rewrite Hp.
  rewrite bool_decide_eq_false_2; [done | by intros []].
Qed.

Lemma run_example4_finally_absent w p :
  fs w !! p = None → run (example4_finally p) w = (w, Ok tt).
Proof.
  intros Hp. unfold run. simpl. rewrite Hp.
  rewrite bool_decide_eq_false_2; [done | by intros []].
Qed.

Lemma run_example2_finally_fs w p w' r :
  is_dir (fs w !! p) = false → run (example2_finally p) w = (w', r) → fs w' !! p = None.
Proof.
  intros Hd. unfold run. simpl.
  destruct (fs w !! p) as [[perm data | perm] | ] eqn:Hp; try done.
  - rewrite bool_decide_eq_true_2 by eauto. simpl. unfold do_remove. rewrite Hp.
    unfold do_print, io, pop_fault. simpl.
    destruct (faults w) as [ | [ | n] flt]; simpl; intros [= <- _]; simpl;
      apply lookup_delete_eq.
  - rewrite bool_decide_eq_false_2 by (by intros []). by intros [= <- _].
Qed.

Lemma run_example4_finally_fs w p w' r :
  is_dir (fs w !! p) = false → run (example4_finally p) w = (w', r) → fs w' !! p = None.
Proof.
  intros Hd. unfold run. simpl.
  destruct (fs w !! p) as [[perm data | perm] | ] eqn:Hp; try done.
  - rewrite bool_decide_eq_true_2 by eauto. simpl. unfold do_remove. rewrite Hp.
    intros [= <- _]; simpl; apply lookup_delete_eq.
  - rewrite bool_decide_eq_false_2 by (by intros []). by intros [= <- _].
Qed.

(** C4: the manual cleanup of examples 2 and 4 skips the deletion when
    the existence check answers [False], so on a path that is no longer
    there it returns normally and changes nothing; and after it has run
    once on a path that is not a directory (whether it returned or was
    interrupted after the deletion), running it again on the same path
    raises nothing and leaves the world as the first run left it. *)
Theorem cleanup_twice_is_safe :
  (∀ w p, fs w !! p = None →
     run (example2_finally p) w = (w, Ok tt) ∧
     run (example4_finally p) w = (w, Ok tt)) ∧
  (∀ w p w' r, is_dir (fs w !! p) = false →
     run (example2_finally p) w = (w', r) →
     run (example2_finally p) w' = (w', Ok tt)) ∧
  (∀ w p w' r, is_dir (fs w !! p) = false →
     run (example4_finally p) w = (w', r) →
     run (example4_finally p) w' = (w', Ok tt)).
Proof.
  split; [ | split].
  - intros w p Hp. split.
    + by apply run_example2_finally_absent.
    + by apply run_example4_finally_absent.
  - intros w p w' r Hd Hrun. apply run_example2_finally_absent.
    by eapply run_example2_finally_fs.
  - intros w p w' r Hd Hrun. apply run_example4_finally_absent.
    by eapply run_example4_finally_fs.
Qed.

(** The deletion of example 5 is reached on both answers of the check
    that precedes it. *)
Lemma example5_remove_not_guarded p : ¬ guarded [] (example5_remove p).
Proof.
  simpl. intros [_ H]. destruct (H tt) as [Hin _]. by apply elem_of_nil in Hin.
Qed.

Lemma guarded_example1 : guarded [] example1.
Proof. simpl. intuition. Qed.

Lemma guarded_example2 : guarded [] example2.
Proof. simpl. intuition. apply list_elem_of_here. Qed.

Lemma guarded_example3 : guarded [] example3.
Proof. simpl. intuition. Qed.

Lemma guarded_example4 : guarded [] example4.
Proof. simpl. intuition. apply list_elem_of_here. Qed.

Lemma run_example5_remove_absent w p :
  fs w !! p = None → calls_succeed 1 (faults w) →
  (run (example5_remove p) w).2 = Raised FileNotFoundError.
Proof.
  intros Hp Hf. unfold run. simpl. rewrite Hp.
  rewrite bool_decide_eq_false_2 by (by intros []). simpl.
  unfold do_print, io, pop_fault.
  destruct (faults w) as [ | [ | n] flt]; simpl in *; [ | lia | ];
    unfold do_remove; simpl; by rewrite Hp.
Qed.

(** C7, as the code has it: the deletions of examples 2 and 4 (and so
    every deletion of examples 1 to 4) are reached only through the
    [True] answer of an existence check on the same path; the deletion of
    example 5 is not: it is reached on either answer of the check before
    it, and on a path that is not there it is attempted and raises
    [FileNotFoundError]. *)
Theorem deletions_guarded_except_example5 :
  guarded [] example1 ∧ guarded [] example2 ∧ guarded [] example3 ∧ guarded [] example4 ∧
  (∀ p, ¬ guarded [] (example5_remove p)) ∧
  (∀ w p, fs w !! p = None → calls_succeed 1 (faults w) →
     (run (example5_remove p) w).2 = Raised FileNotFoundError).
Proof.
  refine (conj guarded_example1 (conj guarded_example2 (conj guarded_example3
            (conj guarded_example4 (conj example5_remove_not_guarded _))))).
  intros w p Hp Hf. by apply run_example5_remove_absent.
Qed.

(** C7 as stated fails: not every deletion of the script is guarded. *)
Lemma script_not_guarded : ¬ guarded [] script.
Proof.
  simpl. intros H.
  specialize (H tt (TmpFile 0 EmptyString)). destruct H as (_ & _ & H).
  specialize (H EmptyString tt tt (TmpFile 0 EmptyString) tt). destruct H as (_ & _ & H).
  specialize (H EmptyString tt EmptyString). destruct H as (_ & _ & H).
  specialize (H [] tt tt (TmpFile 0 EmptyString)). destruct H as (_ & _ & H).
  specialize (H EmptyString). destruct H as (_ & _ & H).
  specialize (H (Subprocess.Completed [] 0 EmptyString) tt (TmpFile 0 EmptyString) tt tt).
  destruct H as [_ H]. destruct (H tt) as [Hin _]. by apply elem_of_nil in Hin.
Qed.

(** ** The generated script *)

(** C10: whatever argument list the generated script is started with,
    its exit status is 0 whenever its [print] succeeds. *)
Theorem temp_script_exit_status argv w :
  (do_print ("Temporary script running with args: " +:+ Py.repr_list (drop 1 argv)) w).2 = Ok tt →
  exit_status (run_with no_spawn (temp_script argv) w).2 = 0%Z.
Proof.
  intros Hprint. simpl.
  destruct (do_print _ w) as [w' [[] | e]]; [done | discriminate].
Qed.

(** ** Straight-line runs *)

Lemma pick_name_fresh (m : gmap string node) dir suffix names p rest :
  pick_name m dir suffix names = Some (p, rest) → m !! p = None.
Proof.
  induction names as [ | r names IH]; simpl; [done | ].
  destruct (m !! Path.join dir ("tmp" +:+ r +:+ suffix)) eqn:Hr; [exact IH | ].
  by intros [= <- _].
Qed.

Lemma append_empty_r s : s +:+ EmptyString = s.
Proof.
  induction s as [ | c s IH]; [done | ].
  change (String c s +:+ EmptyString) with (String c (s +:+ EmptyString)). by f_equal.
Qed.

Lemma append_empty_l s : EmptyString +:+ s = s.
Proof. reflexivity. Qed.

Lemma pwrite_empty buf : pwrite EmptyString 0 buf = buf.
Proof.
  unfold pwrite. change (str_take 0 EmptyString +:+ ?x) with x.
  replace (str_drop (0 + String.length buf) EmptyString) with EmptyString
    by (by destruct (0 + String.length buf)).
  apply append_empty_r.
Qed.

(** The first flush into a file that was just created or truncated. *)
Lemma write_at_insert (m : gmap string node) p perm buf :
  write_at p 0 buf (<[p := File perm EmptyString]> m) = <[p := File perm buf]> m.
Proof.
  unfold write_at. destruct buf as [ | c buf]; [done | ].
  by rewrite lookup_insert_eq, pwrite_empty, insert_insert_eq.
Qed.

Lemma write_at_empty (m : gmap string node) p pos : write_at p pos EmptyString m = m.
Proof. done. Qed.

Lemma exists_insert (m : gmap string node) p nd :
  bool_decide (is_Some (<[p := nd]> m !! p)) = true.
Proof. rewrite lookup_insert_eq. by apply bool_decide_eq_true_2. Qed.

Lemma exists_some {A : Type} (x : A) : bool_decide (is_Some (Some x)) = true.
Proof. by apply bool_decide_eq_true_2. Qed.

Lemma exists_delete (m : gmap string node) p :
  bool_decide (is_Some (delete p m !! p)) = false.
Proof. rewrite lookup_delete_eq. apply bool_decide_eq_false_2. by intros []. Qed.

Lemma snoc_lookup {A : Type} (l : list A) x : (l ++ [x]) !! length l = Some x.
Proof. by apply list_lookup_middle. Qed.

Lemma snoc_insert {A : Type} (l : list A) x y : <[length l := y]> (l ++ [x]) = l ++ [y].
Proof. rewrite insert_app_r_alt by lia. by rewrite Nat.sub_diag. Qed.

(** Brings a program to its tree of calls. *)
Ltac tree :=
  unfold with_, try_finally, do;
  cbn [mbind mret prog_bind prog_ret bind for_ range seq].

(** Evaluates the call at the head of the run, up to the first lookup
    that needs a hypothesis. *)
Ltac eval_calls :=
  cbn [handle];
  unfold do_print, do_NamedTemporaryFile, do_TemporaryDirectory, do_cleanup,
    do_open, do_write, do_flush, do_read, do_close, do_del, do_exists, do_remove,
    do_listdir, do_chmod, io, in_use, flushed, pop_fault,
    set_fs, set_files, set_stdout, set_rng, set_faults;
  cbn [handle fs files stdout tmpdir executable rng faults fst snd
       file name f_path f_mode f_open f_pos f_buf f_delete
       readable writable text_mode andb orb negb is_dir id
       Nat.add String.length str_drop].

Ltac lookups :=
  rewrite ?append_empty_l, ?snoc_lookup, ?snoc_insert, ?write_at_insert, ?write_at_empty,
    ?exists_insert, ?exists_delete, ?lookup_insert_eq, ?insert_insert_eq,
    ?exists_some.

Ltac step :=
  tree; first [rewrite run_with_call | rewrite run_with_try | rewrite run_with_ret];
  eval_calls; lookups; eval_calls.

(** The two shapes of a schedule whose next [k] calls succeed. *)
Ltac quiet_cases H :=
  match type of H with
  | calls_succeed ?k ?flt =>
      destruct flt as [ | ? ?];
      [ clear H
      | simpl in H; apply Nat.le_exists_sub in H as [? [-> _]];
        rewrite (Nat.add_comm _ k); cbn [Nat.add] ]
  end.

Ltac settle := cbn [after_calls Nat.sub]; rewrite ?Nat.sub_0_r; reflexivity.

Lemma schedule_cases k flt :
  calls_succeed k flt ∨ ∃ n flt', flt = n :: flt' ∧ (n < k)%nat.
Proof.
  destruct flt as [ | n flt']; [by left | ].
  destruct (decide (k ≤ n)%nat); [by left | ].
  right. exists n, flt'. split; [done | lia].
Qed.

(** A run that meets a failing call does not return. *)
Ltac run_into_fault := repeat (step; try discriminate).

(** *** Example 5 *)

Lemma run_example5_quiet m l out td exe rnd flt p names :
  calls_succeed 4 flt →
  is_dir (m !! td) = true →
  pick_name m td ".txt" rnd = Some (p, names) →
  run example5 (World m l out td exe rnd flt) =
  (World m
     (l ++ [PyFile p mode_wb_plus false (String.length ("Binary data example" +:+ Py.nl))
              EmptyString false])
     (((out +:+ "✓ Example 5: NamedTemporaryFile with manual deletion" +:+ Py.nl)
        +:+ "  File persists: True" +:+ Py.nl)
        +:+ "  After removal: False" +:+ Py.nl +:+ Py.nl)
     td exe names (after_calls 4 flt),
   Ok (true, false)).
Proof.
  intros Hq Hd Hpick. pose proof (pick_name_fresh _ _ _ _ _ _ Hpick) as Hfresh.
  quiet_cases Hq.
  all: unfold run, example5, example5_create, example5_remove; tree.
  all: step; step; rewrite Hd, Hpick; eval_calls.
  all: do 7 step.
  all: rewrite delete_insert_eq, delete_id by done.
  all: settle.
Qed.

Lemma run_example5_returns m l out td exe rnd flt w' answers :
  run example5 (World m l out td exe rnd flt) = (w', Ok answers) →
  calls_succeed 4 flt ∧ is_dir (m !! td) = true ∧
  ∃ p names, pick_name m td ".txt" rnd = Some (p, names).
Proof.
  destruct (is_dir (m !! td)) eqn:Hd;
    [ | unfold run, example5, example5_create, example5_remove; tree;
        destruct flt as [ | [ | n] flt]; step; try discriminate;
        step; rewrite Hd; discriminate ].
  destruct (pick_name m td ".txt" rnd) as [[p names] | ] eqn:Hpick;
    [ | unfold run, example5, example5_create, example5_remove; tree;
        destruct flt as [ | [ | n] flt]; step; try discriminate;
        step; rewrite Hd, Hpick; discriminate ].
  destruct (schedule_cases 4 flt) as [Hq | (n & flt' & -> & Hn)]; [by eauto | ].
  unfold run, example5, example5_create, example5_remove; tree.
  destruct n as [ | [ | [ | [ | n]]]]; [ | | | | lia];
    step; try discriminate; step; rewrite Hd, Hpick; eval_calls; run_into_fault.
Qed.

(** C6: in example 5, when its four input/output calls succeed, the
    existence check made before the explicit deletion answers [True]
    and the one made after it answers [False]; the run prints both
    answers and leaves the file system as it found it.  And in every
    run of example 5 that returns, whatever the schedule of faults,
    these are the two answers. *)
Theorem example5_existence_checks :
  (∀ w p names,
     calls_succeed 4 (faults w) →
     is_dir (fs w !! tmpdir w) = true →
     pick_name (fs w) (tmpdir w) ".txt" (rng w) = Some (p, names) →
     ∃ w',
       run example5 w = (w', Ok (true, false)) ∧
       fs w' = fs w ∧
       stdout w' =
         ((stdout w +:+ "✓ Example 5: NamedTemporaryFile with manual deletion" +:+ Py.nl)
            +:+ "  File persists: True" +:+ Py.nl)
            +:+ "  After removal: False" +:+ Py.nl +:+ Py.nl) ∧
  (∀ w w' before after,
     run example5 w = (w', Ok (before, after)) → before = true ∧ after = false).
Proof.
  split.
  - intros [m l out td exe rnd flt] p names. simpl. intros Hq Hd Hpick.
    eexists. split; [by apply run_example5_quiet | done].
  - intros [m l out td exe rnd flt] w' before after Hrun.
    pose proof Hrun as Hrun'.
    apply run_example5_returns in Hrun' as (Hq & Hd & p & names & Hpick).
    rewrite (run_example5_quiet _ _ _ _ _ _ _ p names) in Hrun by done.
    by injection Hrun as _ <- <-.
Qed.

(** *** Examples 1 and 2 *)

Lemma universal_newlines_example1 : Py.universal_newlines example1_data = example1_data.
Proof. reflexivity. Qed.

Lemma universal_newlines_example2 : Py.universal_newlines example2_data = example2_data.
Proof. reflexivity. Qed.

Lemma unlink_quiet_insert (m : gmap string node) p perm data :
  m !! p = None → unlink_quiet p (<[p := File perm data]> m) = m.
Proof.
  intros Hp. unfold unlink_quiet. by rewrite lookup_insert_eq, delete_insert_eq, delete_id.
Qed.

(** The body of example 1, on the world its [with] statement enters
    it in. *)
Lemma run_example1_body_quiet m l out td exe names flt p :
  calls_succeed 6 flt →
  run (example1_body (TmpFile (length l) p))
      (World (<[p := File 384 EmptyString]> m)
             (l ++ [PyFile p mode_w true 0 EmptyString true])
             out td exe names flt) =
  (World (<[p := File 384 example1_data]> m)
         ((l ++ [PyFile p mode_w true (String.length example1_data) EmptyString true])
            ++ [PyFile p mode_r false (String.length example1_data) EmptyString false])
         ((out +:+ ("  Created: " +:+ p) +:+ Py.nl)
            +:+ ("  Content: " +:+ example1_data) +:+ Py.nl)
         td exe names (after_calls 6 flt),
   Ok example1_data).
Proof.
  intros Hq. quiet_cases Hq.
  all: unfold run, example1_body; tree; repeat step.
  all: rewrite universal_newlines_example1.
  all: settle.
Qed.

Lemma run_example1_scope_quiet m l out td exe rnd flt p names :
  calls_succeed 6 flt →
  is_dir (m !! td) = true →
  pick_name m td ".txt" rnd = Some (p, names) →
  run example1_scope (World m l out td exe rnd flt) =
  (World m
         ((l ++ [PyFile p mode_w false (String.length example1_data) EmptyString true])
            ++ [PyFile p mode_r false (String.length example1_data) EmptyString false])
         ((out +:+ ("  Created: " +:+ p) +:+ Py.nl)
            +:+ ("  Content: " +:+ example1_data) +:+ Py.nl)
         td exe names (after_calls 6 flt),
   Ok example1_data).
Proof.
  intros Hq Hd Hpick. pose proof (pick_name_fresh _ _ _ _ _ _ Hpick) as Hfresh.
  unfold run, example1_scope.
  erewrite run_with_with; [ | eval_calls; by rewrite Hd, Hpick].
  fold (run (example1_body (TmpFile (length l) p))).
  rewrite run_example1_body_quiet by done. eval_calls.
  rewrite lookup_app_l_Some with (x := PyFile p mode_w true (String.length example1_data) EmptyString true)
    by apply snoc_lookup.
  eval_calls. lookups. eval_calls.
  rewrite unlink_quiet_insert by done.
  rewrite insert_app_l by (rewrite length_app; simpl; lia). by rewrite snoc_insert.
Qed.

Lemma run_example2_create_quiet m l out td exe rnd flt p names :
  is_dir (m !! td) = true →
  pick_name m td ".txt" rnd = Some (p, names) →
  run example2_create (World m l out td exe rnd flt) =
  (World (<[p := File 384 EmptyString]> m)
         (l ++ [PyFile p mode_wb_plus false 0 EmptyString false])
         out td exe names flt,
   Ok p).
Proof.
  intros Hd Hpick. unfold run, example2_create. tree.
  step. rewrite Hd, Hpick. eval_calls. do 2 step. reflexivity.
Qed.

Lemma run_example2_body_quiet m l out td exe names flt p perm old :
  calls_succeed 6 flt →
  m !! p = Some (File perm old) →
  run (example2_body p) (World m l out td exe names flt) =
  (World (<[p := File perm example2_data]> m)
         ((l ++ [PyFile p mode_w false (String.length example2_data) EmptyString false])
            ++ [PyFile p mode_r false (String.length example2_data) EmptyString false])
         ((out +:+ ("  Created: " +:+ p) +:+ Py.nl)
            +:+ ("  Content: " +:+ example2_data) +:+ Py.nl)
         td exe names (after_calls 6 flt),
   Ok example2_data).
Proof.
  intros Hq Hp. quiet_cases Hq.
  all: unfold run, example2_body; tree.
  all: step; step; rewrite Hp; eval_calls; repeat step.
  all: rewrite universal_newlines_example2.
  all: settle.
Qed.

Lemma run_example1_body_returns m l out td exe names flt p w2 content :
  run (example1_body (TmpFile (length l) p))
      (World (<[p := File 384 EmptyString]> m)
             (l ++ [PyFile p mode_w true 0 EmptyString true])
             out td exe names flt) = (w2, Ok content) →
  calls_succeed 6 flt.
Proof.
  destruct (schedule_cases 6 flt) as [Hq | (n & flt' & -> & Hn)]; [done | ].
  unfold run, example1_body; tree.
  destruct n as [ | [ | [ | [ | [ | [ | n]]]]]]; [ | | | | | | lia]; run_into_fault.
Qed.

Lemma run_example2_body_returns m l out td exe names flt p perm old w2 content :
  m !! p = Some (File perm old) →
  run (example2_body p) (World m l out td exe names flt) = (w2, Ok content) →
  calls_succeed 6 flt.
Proof.
  intros Hp.
  destruct (schedule_cases 6 flt) as [Hq | (n & flt' & -> & Hn)]; [done | ].
  unfold run, example2_body; tree.
  destruct n as [ | [ | [ | [ | [ | [ | n]]]]]]; [ | | | | | | lia];
    step; try discriminate; step; try discriminate; rewrite Hp; eval_calls;
    run_into_fault.
Qed.

Lemma run_example2_create_inv w w1 temp_file :
  run example2_create w = (w1, Ok temp_file) →
  ∃ names,
    is_dir (fs w !! tmpdir w) = true ∧
    pick_name (fs w) (tmpdir w) ".txt" (rng w) = Some (temp_file, names) ∧
    w1 = World (<[temp_file := File 384 EmptyString]> (fs w))
               (files w ++ [PyFile temp_file mode_wb_plus false 0 EmptyString false])
               (stdout w) (tmpdir w) (executable w) names (faults w).
Proof.
  destruct w as [m l out td exe rnd flt]. unfold run, example2_create. tree.
  step.
  destruct (is_dir (m !! td)) eqn:Hd; [ | done].
  destruct (pick_name m td ".txt" rnd) as [[p names] | ] eqn:Hpick; [ | done].
  eval_calls. do 2 step. intros [= <- <-]. by exists names.
Qed.

(** C3: what examples 1 and 2 write to their temporary file is what
    they read back through a fresh file object opened on the same path,
    after the flush (example 1) or after the writing object was closed
    (example 2): when the six input/output calls of the block succeed,
    the read gives the string that was written, and at that moment the
    file holds exactly these bytes.  And in every run in which the block
    returns, whatever the schedule of faults, what it read is what it
    wrote. *)
Theorem written_content_is_read_back :
  (∀ w wt f,
     calls_succeed 6 (faults w) →
     do_NamedTemporaryFile mode_w true ".txt" w = (wt, Ok f) →
     ∃ w2 perm,
       run (example1_body f) wt = (w2, Ok example1_data) ∧
       fs w2 !! name f = Some (File perm example1_data) ∧
       (run example1_scope w).2 = Ok example1_data) ∧
  (∀ w w1 temp_file,
     calls_succeed 6 (faults w) →
     run example2_create w = (w1, Ok temp_file) →
     ∃ w2 perm,
       run (example2_body temp_file) w1 = (w2, Ok example2_data) ∧
       fs w2 !! temp_file = Some (File perm example2_data)) ∧
  (∀ w wt f w2 content,
     do_NamedTemporaryFile mode_w true ".txt" w = (wt, Ok f) →
     run (example1_body f) wt = (w2, Ok content) →
     content = example1_data) ∧
  (∀ w w1 temp_file w2 content,
     run example2_create w = (w1, Ok temp_file) →
     run (example2_body temp_file) w1 = (w2, Ok content) →
     content = example2_data).
Proof.
  split; [ | split; [ | split]].
  - intros w wt [h p] Hf Hcreate.
    apply do_NamedTemporaryFile_ok in Hcreate as (names & Hpick & Hd & Hh & ->).
    destruct w as [m l out td exe rnd flt]. simpl in *. subst h.
    eexists _, 384%N. split; [by apply run_example1_body_quiet | ].
    split; [apply lookup_insert_eq | ].
    by rewrite (run_example1_scope_quiet _ _ _ _ _ _ _ p names).
  - intros w w1 p Hf Hcreate.
    apply run_example2_create_inv in Hcreate as (names & Hd & Hpick & ->).
    destruct w as [m l out td exe rnd flt]. simpl in *.
    eexists _, 384%N. split.
    + apply run_example2_body_quiet with (old := EmptyString); [done | ].
      apply lookup_insert_eq.
    + simpl. rewrite insert_insert_eq. apply lookup_insert_eq.
  - intros w wt [h p] w2 content Hcreate Hrun.
    apply do_NamedTemporaryFile_ok in Hcreate as (names & Hpick & Hd & Hh & ->).
    simpl in *. subst h. pose proof Hrun as Hq.
    apply run_example1_body_returns in Hq.
    rewrite run_example1_body_quiet in Hrun by done. by injection Hrun as _ <-.
  - intros w w1 p w2 content Hcreate Hrun.
    apply run_example2_create_inv in Hcreate as (names & Hd & Hpick & ->).
    pose proof Hrun as Hq.
    apply run_example2_body_returns with (perm := 384%N) (old := EmptyString) in Hq;
      [ | apply lookup_insert_eq].
    rewrite run_example2_body_quiet with (perm := 384%N) (old := EmptyString) in Hrun;
      [ | done | apply lookup_insert_eq].
    by injection Hrun as _ <-.
Qed.

(** C9: in example 2 the file object that [NamedTemporaryFile] returned
    is closed when line 22 is done, before the [try] block opens the path
    again; it stays closed while the block runs, whatever happens there;
    and when the six input/output calls of the block succeed, the block
    opens the path twice more, for writing and then for reading, through
    two later file objects. *)
Theorem example2_initial_handle_closed w wt f :
  do_NamedTemporaryFile mode_wb_plus false ".txt" w = (wt, Ok f) →
  ∃ w1 o,
    run example2_create w = (w1, Ok (name f)) ∧
    files w1 !! file f = Some o ∧ f_path o = name f ∧ f_open o = false ∧
    (∀ w2 r, run (example2_body (name f)) w1 = (w2, r) →
       ∃ o2, files w2 !! file f = Some o2 ∧ f_open o2 = false) ∧
    (calls_succeed 6 (faults w) →
       ∃ w2, run (example2_body (name f)) w1 = (w2, Ok example2_data) ∧
         files w2 =
           files w ++
           [PyFile (name f) mode_wb_plus false 0 EmptyString false;
            PyFile (name f) mode_w false (String.length example2_data) EmptyString false;
            PyFile (name f) mode_r false (String.length example2_data) EmptyString false]).
Proof.
  intros Hcreate. destruct f as [h p].
  apply do_NamedTemporaryFile_ok in Hcreate as (names & Hpick & Hd & Hh & ->).
  destruct w as [m l out td exe rnd flt]. simpl in *. subst h.
  eexists _, _. split; [by apply run_example2_create_quiet | ].
  split; [apply snoc_lookup | ]. split; [done | ]. split; [done | ]. split.
  - intros w2 r Hrun.
    assert (only makes_no_directory (example2_body p)) as Honly by (simpl; intuition).
    match type of Hrun with run _ ?w1 = _ =>
      destruct (settled_run (example2_body p) w1 Honly) as [Hobj _] end.
    rewrite Hrun in Hobj. simpl in Hobj.
    destruct (Hobj (length l) _ (snoc_lookup _ _)) as (o2 & Ho2 & _ & _ & Hclosed).
    exists o2. split; [done | by apply Hclosed].
  - intros Hq. eexists. split.
    + apply run_example2_body_quiet with (old := EmptyString); [done | ].
      apply lookup_insert_eq.
    + simpl. by rewrite <- !app_assoc.
Qed.

(** *** Example 4 and its child process *)

Lemma python_load_temp_script : python_load temp_script_source = Some temp_script.
Proof. unfold python_load. by rewrite decide_True. Qed.

(** The interpreter started on the generated script: starting the
    process is one input/output call, the child's [print] the next. *)
Lemma python_temp_script m l out td exe rnd script args perm flt :
  m !! script = Some (File perm temp_script_source) →
  python (exe :: script :: args) (World m l out td exe rnd flt) =
  match flt with
  | 0 :: flt' => (World m l out td exe rnd flt', Raised OSError)
  | 1 :: flt' =>
      (World m l out td exe rnd flt',
       Ok (Subprocess.Completed (exe :: script :: args) 1 EmptyString))
  | S (S n) :: flt' =>
      (World m l out td exe rnd (n :: flt'),
       Ok (Subprocess.Completed (exe :: script :: args) 0
             (EmptyString +:+
                ("Temporary script running with args: " +:+ Py.repr_list args) +:+ Py.nl)))
  | [] =>
      (World m l out td exe rnd [],
       Ok (Subprocess.Completed (exe :: script :: args) 0
             (EmptyString +:+
                ("Temporary script running with args: " +:+ Py.repr_list args) +:+ Py.nl)))
  end.
Proof.
  intros Hscript. unfold python, io, pop_fault.
  destruct flt as [ | [ | [ | n]] flt']; cbn [faults set_faults fs executable tmpdir rng
      files stdout]; try reflexivity;
    rewrite decide_True by done; rewrite Hscript, python_load_temp_script;
    reflexivity.
Qed.

Ltac spawn_step :=
  tree; rewrite run_with_call; cbn [handle];
  rewrite (python_temp_script _ _ _ _ _ _ _ _ 493) by apply lookup_insert_eq;
  eval_calls.

Lemma remove_insert_fresh (m : gmap string node) p nd :
  m !! p = None → delete p (<[p := nd]> m) = m.
Proof. intros Hp. by rewrite delete_insert_eq, delete_id. Qed.

(** The calls of example 4, one after the other. *)
Ltac run_example4 Hd Hpick Hfresh :=
  unfold run, example4, example4_create, example4_body, example4_finally;
  step; step; rewrite Hd, Hpick; eval_calls;
  do 8 step; spawn_step; repeat step;
  rewrite remove_insert_fresh by exact Hfresh.

(** Example 4 when its six input/output calls succeed. *)
Lemma run_example4_quiet m l out td exe rnd flt p names :
  calls_succeed 6 flt →
  is_dir (m !! td) = true →
  pick_name m td ".py" rnd = Some (p, names) →
  run example4 (World m l out td exe rnd flt) =
  (World m
     (l ++ [PyFile p mode_w false (String.length temp_script_source) EmptyString false])
     ((out +:+ "✓ Example 4: Temporary script" +:+ Py.nl)
        +:+ ("  " +:+ "Temporary script running with args: ['arg1', 'arg2']" +:+ Py.nl)
        +:+ Py.nl)
     td exe names (after_calls 6 flt),
   Ok (Subprocess.Completed [exe; p; "arg1"; "arg2"] 0
         ("Temporary script running with args: ['arg1', 'arg2']" +:+ Py.nl))).
Proof.
  intros Hq Hd Hpick. pose proof (pick_name_fresh _ _ _ _ _ _ Hpick) as Hfresh.
  quiet_cases Hq.
  all: run_example4 Hd Hpick Hfresh.
  all: settle.
Qed.

(** Example 4 when the child's [print], the fifth input/output call,
    fails: the child exits with status 1 and the example goes on. *)
Lemma run_example4_child_fails m l out td exe rnd flt p names :
  calls_succeed 1 flt →
  is_dir (m !! td) = true →
  pick_name m td ".py" rnd = Some (p, names) →
  run example4 (World m l out td exe rnd (4 :: flt)) =
  (World m
     (l ++ [PyFile p mode_w false (String.length temp_script_source) EmptyString false])
     ((out +:+ "✓ Example 4: Temporary script" +:+ Py.nl)
        +:+ ("  " +:+ Py.nl) +:+ Py.nl)
     td exe names (after_calls 1 flt),
   Ok (Subprocess.Completed [exe; p; "arg1"; "arg2"] 1 EmptyString)).
Proof.
  intros Hq Hd Hpick. pose proof (pick_name_fresh _ _ _ _ _ _ Hpick) as Hfresh.
  quiet_cases Hq.
  all: run_example4 Hd Hpick Hfresh.
  all: settle.
Qed.

(** Example 4 when starting the process, the fourth input/output call,
    fails: the error leaves the example after the [finally] block has
    removed the script. *)
Lemma run_example4_spawn_fails m l out td exe rnd p names flt :
  is_dir (m !! td) = true →
  pick_name m td ".py" rnd = Some (p, names) →
  run example4 (World m l out td exe rnd (3 :: flt)) =
  (World m
     (l ++ [PyFile p mode_w false (String.length temp_script_source) EmptyString false])
     (out +:+ "✓ Example 4: Temporary script" +:+ Py.nl)
     td exe names flt,
   Raised OSError).
Proof.
  intros Hd Hpick. pose proof (pick_name_fresh _ _ _ _ _ _ Hpick) as Hfresh.
  run_example4 Hd Hpick Hfresh. reflexivity.
Qed.

(** Example 4 returns exactly when its calls succeed, the child's
    [print] possibly excepted. *)
Lemma run_example4_returns m l out td exe rnd flt w' result :
  run example4 (World m l out td exe rnd flt) = (w', Ok result) →
  is_dir (m !! td) = true ∧
  (∃ p names, pick_name m td ".py" rnd = Some (p, names)) ∧
  (calls_succeed 6 flt ∨ ∃ flt', flt = 4 :: flt' ∧ calls_succeed 1 flt').
Proof.
  destruct (is_dir (m !! td)) eqn:Hd;
    [ | unfold run, example4, example4_create, example4_body, example4_finally;
        destruct flt as [ | [ | n] flt]; step; try discriminate;
        step; rewrite Hd; discriminate ].
  destruct (pick_name m td ".py" rnd) as [[p names] | ] eqn:Hpick;
    [ | unfold run, example4, example4_create, example4_body, example4_finally;
        destruct flt as [ | [ | n] flt]; step; try discriminate;
        step; rewrite Hd, Hpick; discriminate ].
  destruct (schedule_cases 6 flt) as [Hq | (n & flt' & -> & Hn)]; [by eauto 10 | ].
  assert (n = 4 ∧ calls_succeed 1 flt' ∨
          (n ≠ 4 ∨ ∃ flt'', flt' = 0 :: flt'')) as [[-> Hq] | Hbad].
  { destruct (decide (n = 4)); [ | by auto].
    destruct (schedule_cases 1 flt') as [Hq | (k & flt'' & -> & Hk)]; [by auto | ].
    right. right. exists flt''. f_equal. lia. }
  { by eauto 10. }
  unfold run, example4, example4_create, example4_body, example4_finally.
  destruct n as [ | [ | [ | [ | [ | [ | n]]]]]]; [ | | | | | | lia].
  5: { destruct Hbad as [Hbad | [flt'' ->]]; [done | ]. 
       step; step; rewrite Hd, Hpick; eval_calls;
       repeat (first [spawn_step | step]; try discriminate). }
  all: step; try discriminate; step; rewrite Hd, Hpick; eval_calls;
       repeat (first [spawn_step | step]; try discriminate).
Qed.

(** C2: in a run of example 4 whose six input/output calls succeed,
    the generated script, started with the arguments [arg1] and [arg2],
    exits with status 0 and its captured standard output is one line in
    which both arguments appear verbatim.  And in every run of example 4
    that returns with a child that exited with status 0, whatever the
    schedule of faults, that line is the captured output. *)
Theorem temp_script_prints_its_arguments :
  (∀ w p names,
     calls_succeed 6 (faults w) →
     is_dir (fs w !! tmpdir w) = true →
     pick_name (fs w) (tmpdir w) ".py" (rng w) = Some (p, names) →
     ∃ w' result,
       run example4 w = (w', Ok result) ∧
       Subprocess.args result = [executable w; p; "arg1"; "arg2"] ∧
       Subprocess.returncode result = 0%Z ∧
       Subprocess.stdout result =
         "Temporary script running with args: ['arg1', 'arg2']" +:+ Py.nl ∧
       ∃ line, line ∈ Py.splitlines (Subprocess.stdout result) ∧
               Py.contains "arg1" line = true ∧ Py.contains "arg2" line = true) ∧
  (∀ w w' result,
     run example4 w = (w', Ok result) →
     Subprocess.returncode result = 0%Z →
     Subprocess.stdout result =
       "Temporary script running with args: ['arg1', 'arg2']" +:+ Py.nl).
Proof.
  split.
  - intros [m l out td exe rnd flt] p names. simpl. intros Hq Hd Hpick.
    eexists _, _. split; [by apply run_example4_quiet | ].
    simpl. repeat split.
    exists "Temporary script running with args: ['arg1', 'arg2']".
    split; [ | by vm_compute]. vm_compute. apply list_elem_of_here.
  - intros [m l out td exe rnd flt] w' result Hrun Hstatus.
    pose proof Hrun as Hrun'.
    apply run_example4_returns in Hrun' as (Hd & (p & names & Hpick) & [Hq | (flt' & -> & Hq)]).
    + rewrite (run_example4_quiet _ _ _ _ _ _ _ p names) in Hrun by done.
      by injection Hrun as _ <-.
    + rewrite (run_example4_child_fails _ _ _ _ _ _ _ p names) in Hrun by done.
      injection Hrun as _ <-. discriminate Hstatus.
Qed.

(** C8 as stated fails: here the child exits with status 1 and the
    example returns normally all the same. *)
Lemma example4_continues_after_failed_child :
  ¬ (∀ w' result,
       run example4 (small_world [4]) = (w', Ok result) →
       Subprocess.returncode result = 0%Z).
Proof.
  intros H. unfold small_world in H.
  erewrite run_example4_child_fails in H; [ | exact I | by vm_compute | by vm_compute].
  specialize (H _ _ eq_refl). discriminate H.
Qed.

(** C8, as the code has it: when the child process cannot be started
    (the fourth input/output call of example 4 fails) the error leaves
    the example, after the [finally] block has removed the script; the
    exit status of a child that did run is not looked at: with a child
    that exits with status 1 (its [print], the fifth call, fails) the
    example prints the empty captured output, removes the script and
    returns normally. *)
Theorem example4_spawn_error_propagates_status_ignored :
  (∀ w p names flt,
     faults w = 3 :: flt →
     is_dir (fs w !! tmpdir w) = true →
     pick_name (fs w) (tmpdir w) ".py" (rng w) = Some (p, names) →
     ∃ w', run example4 w = (w', Raised OSError) ∧ fs w' !! p = None) ∧
  (∀ w p names flt,
     faults w = 4 :: flt → calls_succeed 1 flt →
     is_dir (fs w !! tmpdir w) = true →
     pick_name (fs w) (tmpdir w) ".py" (rng w) = Some (p, names) →
     ∃ w' result,
       run example4 w = (w', Ok result) ∧
       Subprocess.returncode result = 1%Z ∧
       fs w' !! p = None).
Proof.
  split.
  - intros [m l out td exe rnd flt0] p names flt. simpl. intros -> Hd Hpick.
    eexists. split; [by apply run_example4_spawn_fails | ].
    simpl. by eapply pick_name_fresh.
  - intros [m l out td exe rnd flt0] p names flt. simpl. intros -> Hq Hd Hpick.
    eexists _, _. split; [by apply run_example4_child_fails | ].
    simpl. split; [done | by eapply pick_name_fresh].
Qed.

(** *** Example 3 *)

(** [with open(p, 'w') as f: f.write(data)] on a name that does not
    exist, in a directory that does. *)
Lemma run_write_new_file spawn {A : Type} p data (k : unit → prog A)
    m l out td exe names flt :
  calls_succeed 2 flt → m !! p = None → parent_ok p m = true →
  run_with spawn
    (Call (Open p mode_w)
       (λ f, TryFinally (Call (Write f data) Ret) (Call (Close f) Ret) k))
    (World m l out td exe names flt) =
  run_with spawn (k tt)
    (World (<[p := File 420 data]> m)
           (l ++ [PyFile p mode_w false (String.length data) EmptyString false])
           out td exe names (after_calls 2 flt)).
Proof.
  intros Hq Hp Hparent. quiet_cases Hq.
  all: step; rewrite Hp, Hparent; eval_calls; do 4 step.
  all: settle.
Qed.

Lemma parent_ok_child (m : gmap string node) d n :
  Py.occurs "/" n = false → is_dir (m !! d) = true → parent_ok (d +:+ "/" +:+ n) m = true.
Proof.
  intros Hn Hd. unfold parent_ok. rewrite parent_child by done. rewrite Hd.
  apply orb_true_r.
Qed.

Lemma child_inj d n n' : d +:+ "/" +:+ n = d +:+ "/" +:+ n' → n = n'.
Proof. intros H. apply (inj (String.app d)) in H. by injection H. Qed.

Lemma child_not_self d n : d +:+ "/" +:+ n ≠ d.
Proof.
  intros H. rewrite <- (append_empty_r d) in H at 2.
  apply (inj (String.app d)) in H. discriminate H.
Qed.

(** The three paths of example 3 differ from each other and from the
    directory, are not taken, and can be created once the directory
    exists. *)
Lemma example3_paths (m : gmap string node) d :
  (∀ p, d ∈ Path.ancestors p → m !! p = None) →
  let f0 := d +:+ "/" +:+ "file0.txt" in
  let f1 := d +:+ "/" +:+ "file1.txt" in
  let f2 := d +:+ "/" +:+ "file2.txt" in
  f0 ≠ d ∧ f1 ≠ d ∧ f2 ≠ d ∧ f0 ≠ f1 ∧ f0 ≠ f2 ∧ f1 ≠ f2 ∧
  m !! f0 = None ∧ m !! f1 = None ∧ m !! f2 = None ∧
  ∀ (m' : gmap string node) n,
    Py.occurs "/" n = false → m' !! d = Some (Dir 448) →
    parent_ok (d +:+ "/" +:+ n) m' = true.
Proof.
  intros Hbelow f0 f1 f2.
  split_and!; try apply child_not_self; try (intros H%child_inj; discriminate H);
    try apply Hbelow, ancestors_below.
  intros m' n Hn Hm'. apply parent_ok_child; [done | by rewrite Hm'].
Qed.

(** The body of example 3, entered with a directory that was just
    made. *)
Lemma run_example3_body_quiet m l out td exe names flt d :
  calls_succeed 9 flt →
  d ≠ EmptyString → Path.ends_with_slash d = false →
  (∀ p, d ∈ Path.ancestors p → m !! p = None) →
  m !! d = None →
  ∃ l' out' files,
    run (example3_body d) (World (<[d := Dir 448]> m) l out td exe names flt) =
    (World (<[Path.join d "file2.txt" := File 420 ("File 2 content" +:+ Py.nl)]>
             (<[Path.join d "file1.txt" := File 420 ("File 1 content" +:+ Py.nl)]>
               (<[Path.join d "file0.txt" := File 420 ("File 0 content" +:+ Py.nl)]>
                 (<[d := Dir 448]> m))))
           l' out' td exe names (after_calls 9 flt),
     Ok files) ∧
    files ≡ₚ ["file0.txt"; "file1.txt"; "file2.txt"].
Proof.
  intros Hq Hne Hend Hbelow Hd.
  unfold run, example3_body. tree.
  change (Py.str_nat 0) with "0". change (Py.str_nat 1) with "1".
  change (Py.str_nat 2) with "2".
  change ("file" +:+ "0" +:+ ".txt") with "file0.txt".
  change ("file" +:+ "1" +:+ ".txt") with "file1.txt".
  change ("file" +:+ "2" +:+ ".txt") with "file2.txt".
  rewrite !join_child by done.
  destruct (example3_paths m d Hbelow)
    as (H0d & H1d & H2d & H01 & H02 & H12 & H0 & H1 & H2 & Hparent).
  set (f0 := d +:+ "/" +:+ "file0.txt") in *. set (f1 := d +:+ "/" +:+ "file1.txt") in *.
  set (f2 := d +:+ "/" +:+ "file2.txt") in *.
  quiet_cases Hq.
  all: step.
  all: rewrite run_write_new_file;
         [ | simpl; lia | by rewrite lookup_insert_ne
           | apply Hparent; [done | by rewrite lookup_insert_eq] ].
  all: tree; cbn [after_calls Nat.sub].
  all: rewrite run_write_new_file;
         [ | simpl; lia | by rewrite !lookup_insert_ne
           | apply Hparent; [done | by rewrite lookup_insert_ne, lookup_insert_eq] ].
  all: tree; cbn [after_calls Nat.sub].
  all: rewrite run_write_new_file;
         [ | simpl; lia | by rewrite !lookup_insert_ne
           | apply Hparent; [done | by rewrite !lookup_insert_ne, lookup_insert_eq by done] ].
  all: tree; cbn [after_calls Nat.sub].
  all: step; rewrite !lookup_insert_ne, lookup_insert_eq by done; eval_calls.
  all: repeat step.
  all: eexists _, _, _; split; [settle | ].
  all: rewrite listdir_insert by (by rewrite !lookup_insert_ne).
  all: rewrite listdir_insert by (by rewrite !lookup_insert_ne).
  all: rewrite listdir_insert by (by rewrite !lookup_insert_ne).
  all: rewrite listdir_insert by done.
  all: rewrite (listdir_empty m d Hbelow), child_name_self.
  all: rewrite !(proj2 (child_name_Some d _ _)) by done.
  all: simpl; apply Permutation_rev.
Qed.

Lemma run_example3_body_returns m l out td exe names flt d w1 files :
  d ≠ EmptyString → Path.ends_with_slash d = false →
  (∀ p, d ∈ Path.ancestors p → m !! p = None) →
  m !! d = None →
  run (example3_body d) (World (<[d := Dir 448]> m) l out td exe names flt)
    = (w1, Ok files) →
  calls_succeed 9 flt.
Proof.
  intros Hne Hend Hbelow Hd.
  destruct (schedule_cases 9 flt) as [Hq | (k & flt' & -> & Hk)]; [done | ].
  unfold run, example3_body. tree.
  change (Py.str_nat 0) with "0". change (Py.str_nat 1) with "1".
  change (Py.str_nat 2) with "2".
  change ("file" +:+ "0" +:+ ".txt") with "file0.txt".
  change ("file" +:+ "1" +:+ ".txt") with "file1.txt".
  change ("file" +:+ "2" +:+ ".txt") with "file2.txt".
  rewrite !join_child by done.
  destruct (example3_paths m d Hbelow)
    as (H0d & H1d & H2d & H01 & H02 & H12 & H0 & H1 & H2 & Hparent).
  destruct k as [ | [ | [ | [ | [ | [ | [ | [ | [ | k]]]]]]]]]; [ | | | | | | | | | lia].
  all: repeat (step; try discriminate;
               rewrite ?lookup_insert_ne by done;
               rewrite ?H0, ?H1, ?H2, ?lookup_insert_eq;
               rewrite ?Hparent
                 by (first [done | by rewrite ?lookup_insert_ne, ?lookup_insert_eq by done]);
               eval_calls; try discriminate).
Qed.

Lemma ancestors_inv q p : q ∈ Path.ancestors p → ∃ r, p = q +:+ "/" +:+ r.
Proof.
  revert q. induction p as [ | c p IH]; intros q.
  - by intros ?%elem_of_nil.
  - rewrite ancestors_cons. intros [Hin | Hin]%elem_of_app.
    + destruct (Ascii.eqb "/" c) eqn:E; [ | by apply elem_of_nil in Hin].
      apply Ascii.eqb_eq in E as <-. apply list_elem_of_singleton in Hin as ->.
      by exists p.
    + apply list_elem_of_fmap in Hin as (q' & -> & Hq').
      destruct (IH q' Hq') as [r ->]. by exists r.
Qed.

(** What the creation of the temporary directory gives the body of
    example 3 to start from. *)
Lemma temporary_directory_fresh w wd d :
  parents_exist (fs w) → plain_names (rng w) →
  do_TemporaryDirectory w = (wd, Ok d) →
  d ≠ EmptyString ∧ Path.ends_with_slash d = false ∧
  (∀ p, d ∈ Path.ancestors p → fs w !! p = None) ∧
  fs w !! d = None ∧
  ∃ names, wd = World (<[d := Dir 448]> (fs w)) (files w) (stdout w) (tmpdir w)
                      (executable w) names (faults w).
Proof.
  intros Hwf Hplain Hcreate.
  apply do_TemporaryDirectory_ok in Hcreate as (names & Hpick & Hd & ->).
  pose proof (pick_name_fresh _ _ _ _ _ _ Hpick) as Hfresh.
  apply pick_name_shape in Hpick as (r & Hr & Hshape).
  assert (Py.occurs "/" r = false) as Hplain_r.
  { unfold plain_names in Hplain. rewrite Forall_forall in Hplain. by apply Hplain. }
  destruct (temporary_name_shape (tmpdir w) r EmptyString Hplain_r eq_refl) as [Hne Hend].
  rewrite <- Hshape in Hne, Hend.
  split_and!; [done | done | | done | by exists names].
  intros p Hp. by eapply nothing_below_missing.
Qed.

(** C1: in a run of example 3 whose nine input/output calls succeed,
    on a file system where every entry has its parent, the body of the
    [with] block turns the fresh, empty temporary directory into one that
    holds exactly the three files file0.txt, file1.txt and file2.txt, and
    the listing it then takes consists of exactly these three names (in
    the order the system enumerates them).  And in every run in which
    the body returns, whatever the schedule of faults, that is the
    listing. *)
Theorem example3_creates_and_lists_three_files :
  (∀ w wd temp_dir,
     parents_exist (fs w) → plain_names (rng w) → calls_succeed 9 (faults w) →
     do_TemporaryDirectory w = (wd, Ok temp_dir) →
     ∃ w1 files,
       run (example3_body temp_dir) wd = (w1, Ok files) ∧
       (∀ p, temp_dir ∈ Path.ancestors p → fs wd !! p = None) ∧
       fs w1 =
         <[Path.join temp_dir "file2.txt" := File 420 ("File 2 content" +:+ Py.nl)]>
           (<[Path.join temp_dir "file1.txt" := File 420 ("File 1 content" +:+ Py.nl)]>
             (<[Path.join temp_dir "file0.txt" := File 420 ("File 0 content" +:+ Py.nl)]>
               (fs wd))) ∧
       files ≡ₚ ["file0.txt"; "file1.txt"; "file2.txt"] ∧
       (run example3_scope w).2 = Ok files) ∧
  (∀ w wd temp_dir w1 files,
     parents_exist (fs w) → plain_names (rng w) →
     do_TemporaryDirectory w = (wd, Ok temp_dir) →
     run (example3_body temp_dir) wd = (w1, Ok files) →
     files ≡ₚ ["file0.txt"; "file1.txt"; "file2.txt"]).
Proof.
  split.
  - intros w wd temp_dir Hwf Hplain Hf Hcreate.
    destruct (temporary_directory_fresh w wd temp_dir Hwf Hplain Hcreate)
      as (Hne & Hend & Hbelow & Hfresh & names & ->).
    destruct w as [m l out td exe rnd flt]. simpl in *.
    destruct (run_example3_body_quiet m l out td exe names flt temp_dir
                Hf Hne Hend Hbelow Hfresh)
      as (l' & out' & files & Hrun & Hperm).
    eexists _, files. split; [exact Hrun | ]. split; [ | split; [done | split; [done | ]]].
    + intros p Hp. rewrite lookup_insert_ne; [by apply Hbelow | ].
      intros ->. apply ancestors_inv in Hp as [r' Hp]. symmetry in Hp.
      by apply child_not_self in Hp.
    + unfold run, example3_scope.
      rewrite (run_with_with python TemporaryDirectory _ _ _ _ _ Hcreate).
      unfold run in Hrun. by rewrite Hrun.
  - intros w wd temp_dir w1 files Hwf Hplain Hcreate Hrun.
    destruct (temporary_directory_fresh w wd temp_dir Hwf Hplain Hcreate)
      as (Hne & Hend & Hbelow & Hfresh & names & ->).
    destruct w as [m l out td exe rnd flt]. simpl in *.
    pose proof (run_example3_body_returns _ _ _ _ _ _ _ _ _ _ Hne Hend Hbelow Hfresh Hrun)
      as Hq.
    destruct (run_example3_body_quiet m l out td exe names flt temp_dir
                Hq Hne Hend Hbelow Hfresh)
      as (l' & out' & files' & Hrun' & Hperm).
    rewrite Hrun' in Hrun. by injection Hrun as _ <-.
Qed.

(** ** Every schedule *)

(** *** Running the script's own interpreter *)

Lemma run_bind {A B : Type} (p : prog A) (g : A → prog B) w :
  run (p ≫= g) w =
  match run p w with
  | (w', Ok a) => run (g a) w'
  | (w', Raised e) => (w', Raised e)
  end.
Proof. apply run_with_bind. Qed.

Lemma calls_succeed_part j k n flt :
  (j + k ≤ n)%nat → calls_succeed n flt → calls_succeed k (after_calls j flt).
Proof. destruct flt as [ | i flt]; simpl; [done | lia]. Qed.

Lemma calls_succeed_whole j k flt :
  calls_succeed j flt → calls_succeed k (after_calls j flt) → calls_succeed (j + k) flt.
Proof. destruct flt as [ | i flt]; simpl; [done | lia]. Qed.

Lemma after_calls_after j k flt :
  after_calls k (after_calls j flt) = after_calls (j + k) flt.
Proof. destruct flt as [ | i flt]; simpl; [done | f_equal; lia]. Qed.

Lemma snoc_snoc_lookup {A : Type} (l : list A) x y :
  ((l ++ [x]) ++ [y]) !! length l = Some x.
Proof. rewrite lookup_app_l by (rewrite length_app; simpl; lia). apply snoc_lookup. Qed.

Lemma snoc_snoc_insert {A : Type} (l : list A) x y z :
  <[length l := z]> ((l ++ [x]) ++ [y]) = (l ++ [z]) ++ [y].
Proof. rewrite insert_app_l by (rewrite length_app; simpl; lia). by rewrite snoc_insert. Qed.

Ltac more_lookups := lookups; rewrite ?snoc_snoc_lookup, ?snoc_snoc_insert.

(** One call, evaluated as far as the lookups go. *)
Ltac stride :=
  tree; first [rewrite run_with_call | rewrite run_with_try | rewrite run_with_ret];
  repeat progress (eval_calls; more_lookups).

(** Splits on whether the input/output call at the head of the run
    fails. *)
Ltac fault_cases :=
  match goal with
  | |- context [match ?f with [] => _ | _ :: _ => _ end] =>
      is_var f; match type of f with list nat => destruct f as [ | [ | ?] ?] end
  | |- context [match ?n with O => _ | S _ => _ end] =>
      is_var n; destruct n as [ | ?]
  end;
  repeat progress (eval_calls; more_lookups).

(** Runs a program along every schedule; [known] brings in what is
    known of the world. *)
Ltac explore known := repeat first [stride | progress (known; eval_calls) | fault_cases].

(** The file objects a run has added are closed. *)
Ltac new_objects :=
  first [ exists []; split; [symmetry; apply app_nil_r | constructor]
        | rewrite <- ?app_assoc; eexists; split; [reflexivity | ]; by repeat constructor ].

(** What a run that returned says of the schedule it ran under. *)
Ltac returned :=
  first [ by intros ? [=]
        | intros _ _; split_and!; [first [exact I | simpl; lia] | reflexivity | by eexists] ].

Lemma cleaned_up_refl w : cleaned_up w w.
Proof. split; [done | ]. exists []. by rewrite app_nil_r. Qed.

Lemma cleaned_up_trans w1 w2 w3 : cleaned_up w1 w2 → cleaned_up w2 w3 → cleaned_up w1 w3.
Proof.
  intros (Hfs & new & Hnew & Hclosed) (Hfs' & new' & Hnew' & Hclosed').
  split; [congruence | ]. exists (new ++ new').
  split; [ | by apply Forall_app]. by rewrite Hnew', Hnew, app_assoc.
Qed.

(** *** Examples 1 and 2 *)

(** Example 1 under any schedule: nothing is left behind, and it
    returns only if its eight input/output calls succeeded. *)
Lemma run_example1_any m l out td exe rnd flt w' r :
  run example1 (World m l out td exe rnd flt) = (w', r) →
  cleaned_up (World m l out td exe rnd flt) w' ∧
  ∀ content, r = Ok content →
    calls_succeed 8 flt ∧ is_dir (m !! td) = true ∧
    is_Some (pick_name m td ".txt" rnd).
Proof.
  unfold run, example1, example1_scope, example1_body; tree.
  generalize "✓ Example 1: Temporary file with context manager", "  Created: ",
    "  Content: ", ("  Auto-cleaned up on exit" +:+ Py.nl).
  intros s1 s2 s3 s4.
  destruct (is_dir (m !! td)) eqn:Hd;
    [ destruct (pick_name m td ".txt" rnd) as [[p names] | ] eqn:Hpick | ].
  all: try pose proof (pick_name_fresh _ _ _ _ _ _ Hpick) as Hfresh.
  all: explore ltac:(rewrite ?Hd, ?Hpick).
  all: intros [= <- <-]; split; [split; cbn [fs files]; [ | new_objects] | returned].
  all: by rewrite ?unlink_quiet_insert by exact Hfresh.
Qed.

(** Example 2 under any schedule. *)
Lemma run_example2_any m l out td exe rnd flt w' r :
  run example2 (World m l out td exe rnd flt) = (w', r) →
  cleaned_up (World m l out td exe rnd flt) w' ∧
  ∀ content, r = Ok content →
    calls_succeed 8 flt ∧ is_dir (m !! td) = true ∧
    is_Some (pick_name m td ".txt" rnd).
Proof.
  unfold run, example2, example2_create, example2_body, example2_finally; tree.
  generalize "✓ Example 2: Manual cleanup with try-finally", "  Created: ", "  Content: ",
    ("  Manually cleaned up" +:+ Py.nl).
  intros s1 s2 s3 s4.
  destruct (is_dir (m !! td)) eqn:Hd;
    [ destruct (pick_name m td ".txt" rnd) as [[p names] | ] eqn:Hpick | ].
  all: try pose proof (pick_name_fresh _ _ _ _ _ _ Hpick) as Hfresh.
  all: explore ltac:(rewrite ?Hd, ?Hpick).
  all: intros [= <- <-]; split; [split; cbn [fs files]; [ | new_objects] | returned].
  all: by rewrite ?remove_insert_fresh by exact Hfresh.
Qed.


(** *** Example 3 *)

Lemma within_self d : Path.within d d = true.
Proof. unfold Path.within. by rewrite bool_decide_eq_true_2. Qed.

Lemma within_child d n : Path.within d (d +:+ "/" +:+ n) = true.
Proof.
  unfold Path.within. rewrite (bool_decide_eq_true_2 (d ∈ _)) by apply ancestors_below.
  apply orb_true_r.
Qed.

Lemma rmtree_insert_within d p nd (m : gmap string node) :
  Path.within d p = true → rmtree d (<[p := nd]> m) = rmtree d m.
Proof.
  intros Hp. unfold rmtree. apply map_filter_insert_not'; simpl; [congruence | ].
  intros _ _. congruence.
Qed.

(** Removing a tree that is not there removes nothing. *)
Lemma rmtree_nothing d (m : gmap string node) :
  m !! d = None → (∀ p, d ∈ Path.ancestors p → m !! p = None) → rmtree d m = m.
Proof.
  intros Hd Hbelow. unfold rmtree. apply map_filter_id. intros p nd Hp. simpl.
  unfold Path.within. apply orb_false_iff. split; apply bool_decide_eq_false_2.
  - intros ->. congruence.
  - intros Hin. apply Hbelow in Hin. congruence.
Qed.

(** What is known of a directory that [TemporaryDirectory] is about to
    make. *)
Lemma temporary_directory_known m td rnd d names :
  parents_exist m → plain_names rnd →
  is_dir (m !! td) = true → pick_name m td EmptyString rnd = Some (d, names) →
  d ≠ EmptyString ∧ Path.ends_with_slash d = false ∧
  (∀ p, d ∈ Path.ancestors p → m !! p = None) ∧ m !! d = None.
Proof.
  intros Hwf Hplain Hd Hpick.
  destruct (temporary_directory_fresh
              (World m [] EmptyString td EmptyString rnd [])
              (World (<[d := Dir 448]> m) [] EmptyString td EmptyString names []) d)
    as (Hne & Hend & Hbelow & Hfresh & _); try done.
  unfold do_TemporaryDirectory. simpl. by rewrite Hd, Hpick.
Qed.

(** The names of example 3. *)
Ltac example3_names :=
  change (Py.str_nat 0) with "0"; change (Py.str_nat 1) with "1";
  change (Py.str_nat 2) with "2";
  change ("file" +:+ "0" +:+ ".txt") with "file0.txt";
  change ("file" +:+ "1" +:+ ".txt") with "file1.txt";
  change ("file" +:+ "2" +:+ ".txt") with "file2.txt".

(** Example 3 under any schedule: nothing is left behind, and it
    returns only if its eleven input/output calls succeeded. *)
Lemma run_example3_any m l out td exe rnd flt w' r :
  parents_exist m → plain_names rnd →
  run example3 (World m l out td exe rnd flt) = (w', r) →
  cleaned_up (World m l out td exe rnd flt) w' ∧
  ∀ listing, r = Ok listing →
    calls_succeed 11 flt ∧ is_dir (m !! td) = true ∧
    is_Some (pick_name m td EmptyString rnd).
Proof.
  intros Hwf Hplain.
  unfold run, example3, example3_scope, example3_body; tree. example3_names.
  generalize "✓ Example 3: Temporary directory", "  Created: ", "  Files created: ",
    ("  Directory auto-cleaned up" +:+ Py.nl), "File ", (" content" +:+ Py.nl).
  intros s1 s2 s3 s4 s5 s6.
  destruct (is_dir (m !! td)) eqn:Hd;
    [ destruct (pick_name m td EmptyString rnd) as [[d names] | ] eqn:Hpick | ].
  2, 3: explore ltac:(rewrite ?Hd, ?Hpick);
        (intros [= <- <-]; split; [split; [reflexivity | new_objects] | returned]).
  destruct (temporary_directory_known m td rnd d names Hwf Hplain Hd Hpick)
    as (Hne & Hend & Hbelow & Hfresh).
  destruct (example3_paths m d Hbelow)
    as (H0d & H1d & H2d & H01 & H02 & H12 & H0 & H1 & H2 & Hparent).
  pose proof (λ m', Hparent m' "file0.txt" eq_refl) as Hparent0.
  pose proof (λ m', Hparent m' "file1.txt" eq_refl) as Hparent1.
  pose proof (λ m', Hparent m' "file2.txt" eq_refl) as Hparent2.
  clear Hparent.
  pose proof (within_child d "file0.txt") as Hin0.
  pose proof (within_child d "file1.txt") as Hin1.
  pose proof (within_child d "file2.txt") as Hin2.
  explore ltac:(rewrite ?Hd, ?Hpick).
  all: rewrite ?join_child by done.
  all: set (f0 := d +:+ "/" +:+ "file0.txt") in *; clearbody f0.
  all: set (f1 := d +:+ "/" +:+ "file1.txt") in *; clearbody f1.
  all: set (f2 := d +:+ "/" +:+ "file2.txt") in *; clearbody f2.
  all: explore ltac:(rewrite ?lookup_insert_ne by done;
                     rewrite ?H0, ?H1, ?H2, ?lookup_insert_eq;
                     rewrite ?Hparent0, ?Hparent1, ?Hparent2
                       by (first [done | by rewrite ?lookup_insert_ne, ?lookup_insert_eq by done])).
  all: intros [= <- <-]; split; [split; cbn [fs files]; [ | new_objects] | returned].
  all: try reflexivity.
  all: rewrite ?rmtree_insert_within by first [assumption | apply within_self].
  all: by apply rmtree_nothing.
Qed.

(** *** Examples 4 and 5 *)

(** What example 4 leaves behind, for every schedule. *)
Lemma run_example4_any m l out td exe rnd flt p names w' r :
  is_dir (m !! td) = true →
  pick_name m td ".py" rnd = Some (p, names) →
  run example4 (World m l out td exe rnd flt) = (w', r) →
  match flt with
  | 1 :: _ => r = Raised OSError ∧ fs w' = <[p := File 384 EmptyString]> m
  | _ => fs w' = m
  end ∧
  ∃ new, files w' = l ++ new ∧ Forall closed new.
Proof.
  intros Hd Hpick. pose proof (pick_name_fresh _ _ _ _ _ _ Hpick) as Hfresh.
  unfold run, example4, example4_create, example4_body, example4_finally; tree.
  generalize "✓ Example 4: Temporary script". intros s1.
  explore ltac:(rewrite ?Hd, ?Hpick;
                rewrite ?(python_temp_script _ _ _ _ _ _ _ _ 493) by apply lookup_insert_eq).
  all: intros [= <- <-]; cbn [fs files].
  all: rewrite ?remove_insert_fresh by exact Hfresh.
  all: (split; [done | new_objects]).
Qed.

(** What example 5 leaves behind, for every schedule. *)
Lemma run_example5_any m l out td exe rnd flt p names w' r :
  is_dir (m !! td) = true →
  pick_name m td ".txt" rnd = Some (p, names) →
  run example5 (World m l out td exe rnd flt) = (w', r) →
  match flt with
  | 1 :: _ =>
      r = Raised OSError ∧ fs w' = <[p := File 384 EmptyString]> m ∧
      files w' = l ++ [PyFile p mode_wb_plus true 0 EmptyString false]
  | 2 :: _ =>
      r = Raised OSError ∧
      fs w' = <[p := File 384 ("Binary data example" +:+ Py.nl)]> m ∧
      files w' = l ++ [PyFile p mode_wb_plus false
                         (String.length ("Binary data example" +:+ Py.nl))
                         EmptyString false]
  | _ => cleaned_up (World m l out td exe rnd flt) w'
  end.
Proof.
  intros Hd Hpick. pose proof (pick_name_fresh _ _ _ _ _ _ Hpick) as Hfresh.
  unfold run, example5, example5_create, example5_remove; tree.
  generalize "✓ Example 5: NamedTemporaryFile with manual deletion",
    "  File persists: ", "  After removal: ".
  intros s1 s2 s3.
  explore ltac:(rewrite ?Hd, ?Hpick).
  all: intros [= <- <-]; cbn [fs files].
  all: try done.
  all: split; cbn [fs files]; [by rewrite ?remove_insert_fresh by exact Hfresh | new_objects].
Qed.

(** A name cannot be drawn: the example stops before it has made
    anything. *)
Lemma run_example4_no_name m l out td exe rnd flt w' r :
  is_dir (m !! td) = false ∨ pick_name m td ".py" rnd = None →
  run example4 (World m l out td exe rnd flt) = (w', r) →
  fs w' = m ∧ ∃ e, r = Raised e.
Proof.
  intros Hno. unfold run, example4, example4_create; tree.
  destruct (is_dir (m !! td)) eqn:Hd;
    [ destruct Hno as [Hno | Hpick]; [done | ] | ].
  all: explore ltac:(rewrite ?Hd, ?Hpick).
  all: intros [= <- <-]; split; [done | by eexists].
Qed.

Lemma run_example5_no_name m l out td exe rnd flt w' r :
  is_dir (m !! td) = false ∨ pick_name m td ".txt" rnd = None →
  run example5 (World m l out td exe rnd flt) = (w', r) →
  fs w' = m ∧ ∃ e, r = Raised e.
Proof.
  intros Hno. unfold run, example5, example5_create; tree.
  destruct (is_dir (m !! td)) eqn:Hd;
    [ destruct Hno as [Hno | Hpick]; [done | ] | ].
  all: explore ltac:(rewrite ?Hd, ?Hpick).
  all: intros [= <- <-]; split; [done | by eexists].
Qed.


(** *** The names that are drawn *)

Lemma pick_name_rest (m : gmap string node) dir suffix names p rest :
  pick_name m dir suffix names = Some (p, rest) → rest ⊆ names.
Proof.
  induction names as [ | r names IH]; simpl; [done | ].
  destruct (m !! Path.join dir ("tmp" +:+ r +:+ suffix)).
  - intros H. apply IH in H. by apply list_subseteq_cons.
  - intros [= _ <-]. by apply list_subseteq_cons.
Qed.

Lemma rng_pop_fault w : rng (pop_fault w).2 = rng w.
Proof. unfold pop_fault. by destruct (faults w) as [ | [ | n] l]. Qed.

Lemma draws_from_io {X : Type} w (k : world → world * result X) :
  (∀ w1, rng w1 = rng w → draws_from w1 (k w1).1) → draws_from w (io w k).1.
Proof.
  intros Hk. unfold io, draws_from in *. pose proof (rng_pop_fault w) as Hp.
  destruct (pop_fault w) as [[] w1]; simpl in *; [by rewrite Hp | ].
  rewrite <- Hp. by apply Hk.
Qed.

Lemma draws_from_refl w : draws_from w w.
Proof. by unfold draws_from. Qed.

Lemma draws_from_trans w1 w2 w3 : draws_from w1 w2 → draws_from w2 w3 → draws_from w1 w3.
Proof. unfold draws_from. intros H1 H2. by etrans. Qed.

Lemma draws_from_same w w' : rng w' = rng w → draws_from w w'.
Proof. unfold draws_from. by intros ->. Qed.

Lemma draws_from_in_use {X : Type} f w (k : pyfile → world * result X) :
  (∀ o, draws_from w (k o).1) → draws_from w (in_use f w k).1.
Proof.
  intros Hk. unfold in_use. destruct (files w !! f) as [o | ]; [ | apply draws_from_refl].
  destruct (f_open o); [apply Hk | apply draws_from_refl].
Qed.

Lemma draws_from_close f w : draws_from w (do_close f w).1.
Proof.
  unfold do_close. destruct (files w !! f) as [o | ]; [ | apply draws_from_refl].
  apply draws_from_same. by repeat case_match.
Qed.

Lemma draws_from_handle spawn {X : Type} (c : call X) w :
  (∀ argv w, draws_from w (spawn argv w).1) → draws_from w (handle spawn c w).1.
Proof.
  intros Hspawn. destruct c; simpl; try done; try apply draws_from_refl.
  - apply draws_from_io. intros w1 _. by apply draws_from_same.
  - unfold do_NamedTemporaryFile. destruct (is_dir _); [ | apply draws_from_refl].
    destruct (pick_name _ _ _ _) as [[p names] | ] eqn:Hpick; unfold draws_from; simpl.
    + by eapply pick_name_rest.
    + apply list_subseteq_nil.
  - unfold do_TemporaryDirectory. destruct (is_dir _); [ | apply draws_from_refl].
    destruct (pick_name _ _ _ _) as [[p names] | ] eqn:Hpick; unfold draws_from; simpl.
    + by eapply pick_name_rest.
    + apply list_subseteq_nil.
  - by apply draws_from_same.
  - apply draws_from_io. intros w1 _. apply draws_from_same. by repeat case_match.
  - apply draws_from_in_use. intros o. destruct (writable _); [ | apply draws_from_refl].
    apply draws_from_io. intros w1 _. by apply draws_from_same.
  - apply draws_from_in_use. intros o.
    apply draws_from_io. intros w1 _. by apply draws_from_same.
  - apply draws_from_in_use. intros o. destruct (readable _); [ | apply draws_from_refl].
    apply draws_from_io. intros w1 _. by apply draws_from_same.
  - apply draws_from_close.
  - apply draws_from_close.
  - apply draws_from_same. unfold do_remove. by repeat case_match.
  - apply draws_from_io. intros w1 _. apply draws_from_same. by repeat case_match.
  - apply draws_from_io. intros w1 _. apply draws_from_same. by repeat case_match.
Qed.

Lemma draws_from_run_with spawn {A : Type} (p : prog A) w :
  (∀ argv w, draws_from w (spawn argv w).1) → draws_from w (run_with spawn p w).1.
Proof.
  intros Hspawn.
  apply (run_with_preserves draws_from (λ _ _, True)).
  - apply draws_from_refl.
  - apply draws_from_trans.
  - intros X c w1 _. by apply draws_from_handle.
  - clear w. induction p; simpl; auto.
Qed.

Lemma draws_from_python argv w : draws_from w (python argv w).1.
Proof.
  unfold python. apply draws_from_io. intros w1 _.
  destruct argv as [ | exe [ | script args]]; try apply draws_from_refl.
  destruct (decide _); [ | apply draws_from_refl].
  destruct (fs w1 !! script) as [[perm source | perm] | ]; try apply draws_from_refl.
  destruct (python_load source) as [main | ]; [ | apply draws_from_refl].
  set (child := World _ _ _ _ _ _ _).
  assert (draws_from child (run_with no_spawn (main (script :: args)) child).1) as Hc.
  { apply draws_from_run_with. intros; apply draws_from_refl. }
  by destruct (run_with no_spawn _ child) as [c r].
Qed.

Lemma draws_from_run {A : Type} (p : prog A) w : draws_from w (run p w).1.
Proof. apply draws_from_run_with, draws_from_python. Qed.

Lemma plain_names_run {A : Type} (p : prog A) w :
  plain_names (rng w) → plain_names (rng (run p w).1).
Proof.
  unfold plain_names. rewrite !Forall_forall. intros Hplain r Hr.
  by apply Hplain, (draws_from_run p w).
Qed.

(** *** The script *)

Lemma run_print_any s w w' r : run (do (Print s)) w = (w', r) → cleaned_up w w'.
Proof.
  destruct w as [m l out td exe rnd flt]. unfold run. generalize s. intros s1.
  explore idtac.
  all: intros [= <- <-]; split; [reflexivity | new_objects].
Qed.

Lemma run_example4_left w w' r :
  run example4 w = (w', r) → no_more_than_one_file_left w w' r.
Proof.
  destruct w as [m l out td exe rnd flt]. intros Hrun.
  destruct (is_dir (m !! td)) eqn:Hd;
    [ destruct (pick_name m td ".py" rnd) as [[p names] | ] eqn:Hpick | ].
  - pose proof (pick_name_fresh _ _ _ _ _ _ Hpick) as Hfresh.
    destruct (run_example4_any _ _ _ _ _ _ _ _ _ _ _ Hd Hpick Hrun) as [Hfs Hnew].
    destruct flt as [ | [ | [ | n]] flt].
    3: { destruct Hfs as [-> Hfs]. right. by exists p, EmptyString. }
    all: destruct r as [result | e]; [by split | by left].
  - destruct (run_example4_no_name _ _ _ _ _ _ _ _ _ (or_intror Hpick) Hrun) as (Hfs & e & ->).
    by left.
  - destruct (run_example4_no_name _ _ _ _ _ _ _ _ _ (or_introl Hd) Hrun) as (Hfs & e & ->).
    by left.
Qed.

Lemma run_example5_left w w' r :
  run example5 w = (w', r) → no_more_than_one_file_left w w' r.
Proof.
  destruct w as [m l out td exe rnd flt]. intros Hrun.
  destruct (is_dir (m !! td)) eqn:Hd;
    [ destruct (pick_name m td ".txt" rnd) as [[p names] | ] eqn:Hpick | ].
  - pose proof (pick_name_fresh _ _ _ _ _ _ Hpick) as Hfresh.
    pose proof (run_example5_any _ _ _ _ _ _ _ _ _ _ _ Hd Hpick Hrun) as Hany.
    destruct flt as [ | [ | [ | [ | n]]] flt].
    3: { destruct Hany as (-> & Hfs & _). right. by eexists p, _. }
    3: { destruct Hany as (-> & Hfs & _). right. by eexists p, _. }
    all: destruct r as [result | e]; [done | left; apply Hany].
  - destruct (run_example5_no_name _ _ _ _ _ _ _ _ _ (or_intror Hpick) Hrun) as (Hfs & e & ->).
    by left.
  - destruct (run_example5_no_name _ _ _ _ _ _ _ _ _ (or_introl Hd) Hrun) as (Hfs & e & ->).
    by left.
Qed.

Lemma left_after_cleaned_up {A : Type} w w1 w' (r : result A) :
  cleaned_up w w1 → no_more_than_one_file_left w1 w' r → no_more_than_one_file_left w w' r.
Proof.
  intros Hc. destruct r as [a | e]; simpl.
  - by apply cleaned_up_trans.
  - destruct Hc as [Hfs _]. by rewrite Hfs.
Qed.

Lemma cleaned_up_left {A : Type} w w' (r : result A) :
  cleaned_up w w' → no_more_than_one_file_left w w' r.
Proof. intros Hc. destruct r as [a | e]; simpl; [done | left; apply Hc]. Qed.

(** The script under any schedule. *)
Lemma run_script_any w w' r :
  parents_exist (fs w) → plain_names (rng w) →
  run script w = (w', r) → no_more_than_one_file_left w w' r.
Proof.
  intros Hwf Hplain. unfold script.
  rewrite run_bind. destruct (run example1 w) as [w1 r1] eqn:H1.
  pose proof (plain_names_run example1 w Hplain) as Hplain1. rewrite H1 in Hplain1.
  destruct w as [m l out td exe rnd flt]. apply run_example1_any in H1 as [H1 _].
  destruct r1 as [c1 | e]; [ | intros [= <- <-]; by apply cleaned_up_left].
  rewrite run_bind. destruct (run example2 w1) as [w2 r2] eqn:H2.
  pose proof (plain_names_run example2 w1 Hplain1) as Hplain2. rewrite H2 in Hplain2.
  destruct w1 as [m1 l1 out1 td1 exe1 rnd1 flt1]. apply run_example2_any in H2 as [H2 _].
  pose proof (cleaned_up_trans _ _ _ H1 H2) as H12.
  destruct r2 as [c2 | e]; [ | intros [= <- <-]; by apply cleaned_up_left].
  rewrite run_bind. destruct (run example3 w2) as [w3 r3] eqn:H3.
  destruct w2 as [m2 l2 out2 td2 exe2 rnd2 flt2].
  apply run_example3_any in H3 as [H3 _];
    [ | by replace m2 with m by (symmetry; apply (proj1 H12)) | done].
  pose proof (cleaned_up_trans _ _ _ H12 H3) as H123.
  destruct r3 as [c3 | e]; [ | intros [= <- <-]; by apply cleaned_up_left].
  rewrite run_bind. destruct (run example4 w3) as [w4 r4] eqn:H4.
  apply run_example4_left in H4. apply (left_after_cleaned_up _ _ _ _ H123) in H4.
  destruct r4 as [c4 | e]; [ | by intros [= <- <-]].
  rewrite run_bind. destruct (run example5 w4) as [w5 r5] eqn:H5.
  apply run_example5_left in H5. apply (left_after_cleaned_up _ _ _ _ H4) in H5.
  destruct r5 as [c5 | e]; [ | by intros [= <- <-]].
  intros H6. apply run_print_any in H6.
  apply cleaned_up_left. by eapply cleaned_up_trans.
Qed.


(** ** The whole script *)

Lemma printed_cons out s lines :
  out +:+ printed (s :: lines) = (out +:+ s +:+ Py.nl) +:+ printed lines.
Proof. cbn [printed]. by rewrite !append_assoc. Qed.

Lemma printed_nil out : out +:+ printed [] = out.
Proof. apply append_empty_r. Qed.

Lemma printed_app out lines lines' :
  out +:+ printed (lines ++ lines') = (out +:+ printed lines) +:+ printed lines'.
Proof.
  revert out. induction lines as [ | s lines IH]; intros out.
  - by rewrite printed_nil.
  - cbn [app]. by rewrite !printed_cons, IH.
Qed.

(** Example 1 when its eight input/output calls succeed. *)
Lemma run_example1_quiet m l out td exe rnd flt p names :
  calls_succeed 8 flt →
  is_dir (m !! td) = true →
  pick_name m td ".txt" rnd = Some (p, names) →
  run example1 (World m l out td exe rnd flt) =
  (World m
     (l ++ [PyFile p mode_w false (String.length example1_data) EmptyString true;
            PyFile p mode_r false (String.length example1_data) EmptyString false])
     (out +:+ printed ["✓ Example 1: Temporary file with context manager";
                       "  Created: " +:+ p;
                       "  Content: " +:+ example1_data;
                       "  Auto-cleaned up on exit" +:+ Py.nl])
     td exe names (after_calls 8 flt),
   Ok example1_data).
Proof.
  intros Hq Hd Hpick. pose proof (pick_name_fresh _ _ _ _ _ _ Hpick) as Hfresh.
  rewrite !printed_cons, printed_nil.
  unfold run, example1, example1_scope, example1_body; tree.
  generalize "✓ Example 1: Temporary file with context manager", "  Created: ",
    "  Content: ", ("  Auto-cleaned up on exit" +:+ Py.nl).
  intros s1 s2 s3 s4.
  quiet_cases Hq.
  all: stride; stride; rewrite Hd, Hpick; eval_calls.
  all: repeat stride.
  all: rewrite universal_newlines_example1, unlink_quiet_insert by done.
  all: rewrite <- app_assoc.
  all: settle.
Qed.

(** Example 2 when its eight input/output calls succeed. *)
Lemma run_example2_quiet m l out td exe rnd flt p names :
  calls_succeed 8 flt →
  is_dir (m !! td) = true →
  pick_name m td ".txt" rnd = Some (p, names) →
  run example2 (World m l out td exe rnd flt) =
  (World m
     (l ++ [PyFile p mode_wb_plus false 0 EmptyString false;
            PyFile p mode_w false (String.length example2_data) EmptyString false;
            PyFile p mode_r false (String.length example2_data) EmptyString false])
     (out +:+ printed ["✓ Example 2: Manual cleanup with try-finally";
                       "  Created: " +:+ p;
                       "  Content: " +:+ example2_data;
                       "  Manually cleaned up" +:+ Py.nl])
     td exe names (after_calls 8 flt),
   Ok example2_data).
Proof.
  intros Hq Hd Hpick. pose proof (pick_name_fresh _ _ _ _ _ _ Hpick) as Hfresh.
  rewrite !printed_cons, printed_nil.
  unfold run, example2, example2_create, example2_body, example2_finally; tree.
  generalize "✓ Example 2: Manual cleanup with try-finally", "  Created: ", "  Content: ",
    ("  Manually cleaned up" +:+ Py.nl).
  intros s1 s2 s3 s4.
  quiet_cases Hq.
  all: stride; stride; rewrite Hd, Hpick; eval_calls.
  all: repeat stride.
  all: rewrite universal_newlines_example2, remove_insert_fresh by done.
  all: rewrite <- !app_assoc.
  all: settle.
Qed.

(** Example 3 when its eleven input/output calls succeed. *)
Lemma run_example3_quiet m l out td exe rnd flt d names :
  calls_succeed 11 flt →
  parents_exist m → plain_names rnd →
  is_dir (m !! td) = true →
  pick_name m td EmptyString rnd = Some (d, names) →
  ∃ listing,
    listing ≡ₚ ["file0.txt"; "file1.txt"; "file2.txt"] ∧
    run example3 (World m l out td exe rnd flt) =
    (World m
       (l ++ [PyFile (Path.join d "file0.txt") mode_w false
                (String.length ("File 0 content" +:+ Py.nl)) EmptyString false;
              PyFile (Path.join d "file1.txt") mode_w false
                (String.length ("File 1 content" +:+ Py.nl)) EmptyString false;
              PyFile (Path.join d "file2.txt") mode_w false
                (String.length ("File 2 content" +:+ Py.nl)) EmptyString false])
       (out +:+ printed ["✓ Example 3: Temporary directory";
                         "  Created: " +:+ d;
                         "  Files created: " +:+ Py.repr_list listing;
                         "  Directory auto-cleaned up" +:+ Py.nl])
       td exe names (after_calls 11 flt),
     Ok listing).
Proof.
  intros Hq Hwf Hplain Hd Hpick.
  destruct (temporary_directory_known m td rnd d names Hwf Hplain Hd Hpick)
    as (Hne & Hend & Hbelow & Hfresh).
  destruct (example3_paths m d Hbelow)
    as (H0d & H1d & H2d & H01 & H02 & H12 & H0 & H1 & H2 & Hparent).
  exists (listdir d
            (<[d +:+ "/" +:+ "file2.txt" := File 420 ("File 2 content" +:+ Py.nl)]>
               (<[d +:+ "/" +:+ "file1.txt" := File 420 ("File 1 content" +:+ Py.nl)]>
                  (<[d +:+ "/" +:+ "file0.txt" := File 420 ("File 0 content" +:+ Py.nl)]>
                     (<[d := Dir 448]> m))))).
  split.
  - rewrite listdir_insert by (by rewrite !lookup_insert_ne).
    rewrite listdir_insert by (by rewrite !lookup_insert_ne).
    rewrite listdir_insert by (by rewrite !lookup_insert_ne).
    rewrite listdir_insert by done.
    rewrite (listdir_empty m d Hbelow), child_name_self.
    rewrite !(proj2 (child_name_Some d _ _)) by done.
    simpl. apply Permutation_rev.
  - rewrite !printed_cons, printed_nil.
    unfold run, example3, example3_scope, example3_body; tree. example3_names.
    rewrite !join_child by done.
    pose proof (λ m', Hparent m' "file0.txt" eq_refl) as Hparent0.
    pose proof (λ m', Hparent m' "file1.txt" eq_refl) as Hparent1.
    pose proof (λ m', Hparent m' "file2.txt" eq_refl) as Hparent2.
    clear Hparent.
    pose proof (within_child d "file0.txt") as Hin0.
    pose proof (within_child d "file1.txt") as Hin1.
    pose proof (within_child d "file2.txt") as Hin2.
    change ("File " +:+ "0" +:+ " content" +:+ Py.nl) with ("File 0 content" +:+ Py.nl).
    change ("File " +:+ "1" +:+ " content" +:+ Py.nl) with ("File 1 content" +:+ Py.nl).
    change ("File " +:+ "2" +:+ " content" +:+ Py.nl) with ("File 2 content" +:+ Py.nl).
    quiet_cases Hq.
    all: stride; stride; rewrite Hd, Hpick; eval_calls.
    all: rewrite ?join_child by done.
    all: set (f0 := d +:+ "/" +:+ "file0.txt") in *; clearbody f0.
    all: set (f1 := d +:+ "/" +:+ "file1.txt") in *; clearbody f1.
    all: set (f2 := d +:+ "/" +:+ "file2.txt") in *; clearbody f2.
    all: generalize ("File 0 content" +:+ Py.nl), ("File 1 content" +:+ Py.nl),
           ("File 2 content" +:+ Py.nl), "✓ Example 3: Temporary directory", "  Created: ",
           "  Files created: ", ("  Directory auto-cleaned up" +:+ Py.nl).
    all: intros c0 c1 c2 s1 s2 s3 s4.
    all: match goal with |- _ = ?rhs => remember rhs as expected eqn:Hexpected end.
    all: repeat first
           [ stride
           | progress (rewrite ?lookup_insert_ne by done;
                       rewrite ?H0, ?H1, ?H2, ?lookup_insert_eq;
                       rewrite ?Hparent0, ?Hparent1, ?Hparent2
                         by (first [done | by rewrite ?lookup_insert_ne, ?lookup_insert_eq by done]);
                       eval_calls) ].
    all: subst expected.
    all: rewrite !rmtree_insert_within by first [assumption | apply within_self].
    all: rewrite rmtree_nothing by done.
    all: rewrite <- !app_assoc.
    all: settle.
Qed.


Lemma calls_succeed_le j k flt : (j ≤ k)%nat → calls_succeed k flt → calls_succeed j flt.
Proof. destruct flt as [ | i flt]; simpl; [done | lia]. Qed.

Lemma plain_names_rest (m : gmap string node) dir suffix names p rest :
  pick_name m dir suffix names = Some (p, rest) → plain_names names → plain_names rest.
Proof.
  intros Hpick%pick_name_rest. unfold plain_names. rewrite !Forall_forall. auto.
Qed.

Lemma run_print_quiet s m l out td exe rnd flt :
  calls_succeed 1 flt →
  run (do (Print s)) (World m l out td exe rnd flt) =
  (World m l (out +:+ s +:+ Py.nl) td exe rnd (after_calls 1 flt), Ok tt).
Proof.
  intros Hq. unfold run. generalize s. intros s1. quiet_cases Hq.
  all: stride; stride.
  all: settle.
Qed.

(** The script when its thirty-eight input/output calls succeed. *)
Lemma run_script_quiet m l out td exe rnd flt p1 n1 p2 n2 d n3 p4 n4 p5 n5 :
  calls_succeed 38 flt →
  parents_exist m → plain_names rnd → is_dir (m !! td) = true →
  pick_name m td ".txt" rnd = Some (p1, n1) →
  pick_name m td ".txt" n1 = Some (p2, n2) →
  pick_name m td EmptyString n2 = Some (d, n3) →
  pick_name m td ".py" n3 = Some (p4, n4) →
  pick_name m td ".txt" n4 = Some (p5, n5) →
  ∃ listing new,
    run script (World m l out td exe rnd flt) =
    (World m (l ++ new) (out +:+ printed (transcript p1 p2 d listing))
           td exe n5 (after_calls 38 flt), Ok tt) ∧
    Forall closed new ∧
    listing ≡ₚ ["file0.txt"; "file1.txt"; "file2.txt"].
Proof.
  intros Hq Hwf Hplain Hd Hp1 Hp2 Hp3 Hp4 Hp5.
  assert (plain_names n2) as Hplain2 by eauto using plain_names_rest.
  pose proof (calls_succeed_le 8 38 flt ltac:(lia) Hq) as Hq1.
  pose proof (calls_succeed_part 8 8 38 flt ltac:(lia) Hq) as Hq2.
  pose proof (calls_succeed_part 16 11 38 flt ltac:(lia) Hq) as Hq3.
  pose proof (calls_succeed_part 27 6 38 flt ltac:(lia) Hq) as Hq4.
  pose proof (calls_succeed_part 33 4 38 flt ltac:(lia) Hq) as Hq5.
  pose proof (calls_succeed_part 37 1 38 flt ltac:(lia) Hq) as Hq6.
  unfold script.
  rewrite run_bind, (run_example1_quiet _ _ _ _ _ _ _ p1 n1) by done.
  rewrite run_bind, (run_example2_quiet _ _ _ _ _ _ _ p2 n2) by done.
  rewrite after_calls_after. cbn [Nat.add].
  destruct (run_example3_quiet m
              ((l ++ [PyFile p1 mode_w false (String.length example1_data) EmptyString true;
                      PyFile p1 mode_r false (String.length example1_data) EmptyString false])
                 ++ [PyFile p2 mode_wb_plus false 0 EmptyString false;
                     PyFile p2 mode_w false (String.length example2_data) EmptyString false;
                     PyFile p2 mode_r false (String.length example2_data) EmptyString false])
              ((out +:+ printed ["✓ Example 1: Temporary file with context manager";
                                 "  Created: " +:+ p1;
                                 "  Content: " +:+ example1_data;
                                 "  Auto-cleaned up on exit" +:+ Py.nl])
                 +:+ printed ["✓ Example 2: Manual cleanup with try-finally";
                              "  Created: " +:+ p2;
                              "  Content: " +:+ example2_data;
                              "  Manually cleaned up" +:+ Py.nl])
              td exe n2 (after_calls 16 flt) d n3 Hq3 Hwf Hplain2 Hd Hp3)
    as (listing & Hperm & H3).
  exists listing. eexists.
  rewrite run_bind, H3.
  rewrite after_calls_after. cbn [Nat.add].
  rewrite run_bind, (run_example4_quiet _ _ _ _ _ _ _ p4 n4) by done.
  rewrite after_calls_after. cbn [Nat.add].
  rewrite run_bind, (run_example5_quiet _ _ _ _ _ _ _ p5 n5) by done.
  rewrite after_calls_after. cbn [Nat.add].
  rewrite run_print_quiet by done.
  rewrite after_calls_after. cbn [Nat.add].
  unfold transcript. rewrite !printed_cons, !printed_nil.
  rewrite <- !app_assoc.
  split; [reflexivity | ]. split; [ | done].
  by repeat constructor.
Qed.


Lemma run_print_returns s m l out td exe rnd flt w' :
  run (do (Print s)) (World m l out td exe rnd flt) = (w', Ok tt) → calls_succeed 1 flt.
Proof.
  unfold run. generalize s. intros s1. explore idtac.
  all: first [discriminate | intros _; first [exact I | simpl; lia]].
Qed.

(** The script returns only if its calls succeeded, the [print] of the
    child process possibly excepted. *)
Lemma run_script_returns m l out td exe rnd flt w' :
  parents_exist m → plain_names rnd →
  run script (World m l out td exe rnd flt) = (w', Ok tt) →
  is_dir (m !! td) = true ∧
  (∃ p1 n1 p2 n2 d n3 p4 n4 p5 n5,
     pick_name m td ".txt" rnd = Some (p1, n1) ∧
     pick_name m td ".txt" n1 = Some (p2, n2) ∧
     pick_name m td EmptyString n2 = Some (d, n3) ∧
     pick_name m td ".py" n3 = Some (p4, n4) ∧
     pick_name m td ".txt" n4 = Some (p5, n5)) ∧
  (calls_succeed 38 flt ∨ ∃ flt', flt = 31 :: flt' ∧ calls_succeed 6 flt').
Proof.
  intros Hwf Hplain. unfold script.
  rewrite run_bind. destruct (run example1 _) as [w1 [c1 | e]] eqn:H1; [ | done].
  destruct (run_example1_any _ _ _ _ _ _ _ _ _ H1) as [_ Hr1].
  destruct (Hr1 _ eq_refl) as (Hq1 & Hd & [[p1 n1] Hp1]).
  rewrite (run_example1_quiet _ _ _ _ _ _ _ p1 n1) in H1 by done. injection H1 as <- _.
  rewrite run_bind. destruct (run example2 _) as [w2 [c2 | e]] eqn:H2; [ | done].
  destruct (run_example2_any _ _ _ _ _ _ _ _ _ H2) as [_ Hr2].
  destruct (Hr2 _ eq_refl) as (Hq2 & _ & [[p2 n2] Hp2]).
  rewrite (run_example2_quiet _ _ _ _ _ _ _ p2 n2) in H2 by done. injection H2 as <- _.
  assert (plain_names n2) as Hplain2 by eauto using plain_names_rest.
  rewrite run_bind. destruct (run example3 _) as [w3 [c3 | e]] eqn:H3; [ | done].
  destruct (run_example3_any _ _ _ _ _ _ _ _ _ Hwf Hplain2 H3) as [_ Hr3].
  destruct (Hr3 _ eq_refl) as (Hq3 & _ & [[d n3] Hp3]).
  match type of H3 with
  | run example3 (World _ ?l3 ?out3 _ _ _ _) = _ =>
      destruct (run_example3_quiet m l3 out3 td exe n2 _ d n3 Hq3 Hwf Hplain2 Hd Hp3)
        as (listing & _ & H3')
  end.
  rewrite H3' in H3. injection H3 as <- _.
  rewrite run_bind. destruct (run example4 _) as [w4 [c4 | e]] eqn:H4; [ | done].
  destruct (run_example4_returns _ _ _ _ _ _ _ _ _ H4)
    as (_ & (p4 & n4 & Hp4) & [Hq4 | (flt' & Hflt & Hq4)]).
  - rewrite (run_example4_quiet _ _ _ _ _ _ _ p4 n4) in H4 by done. injection H4 as <- _.
    rewrite run_bind. destruct (run example5 _) as [w5 [c5 | e]] eqn:H5; [ | done].
    destruct (run_example5_returns _ _ _ _ _ _ _ _ _ H5) as (Hq5 & _ & p5 & n5 & Hp5).
    rewrite (run_example5_quiet _ _ _ _ _ _ _ p5 n5) in H5 by done. injection H5 as <- _.
    intros Hq6%run_print_returns.
    split; [done | ]. split; [by eauto 15 | ]. left.
    destruct flt as [ | n flt0]; simpl in *; [done | lia].
  - rewrite Hflt in H4.
    rewrite (run_example4_child_fails _ _ _ _ _ _ _ p4 n4) in H4 by done. injection H4 as <- _.
    rewrite run_bind. destruct (run example5 _) as [w5 [c5 | e]] eqn:H5; [ | done].
    destruct (run_example5_returns _ _ _ _ _ _ _ _ _ H5) as (Hq5 & _ & p5 & n5 & Hp5).
    rewrite (run_example5_quiet _ _ _ _ _ _ _ p5 n5) in H5 by done. injection H5 as <- _.
    intros Hq6%run_print_returns.
    split; [done | ]. split; [by eauto 15 | ]. right. exists flt'.
    destruct flt as [ | n flt0]; simpl in *; [done | ].
    injection Hflt as Hn ->. split; [f_equal; lia | ].
    destruct flt' as [ | k flt1]; simpl in *; [done | lia].
Qed.


(** ** The generated script on any arguments *)









(** ** What the examples and the script guarantee *)

(** X1: example 1, the [with] block around [NamedTemporaryFile] with
    [delete=True], leaves nothing behind whatever fails: on every world
    and under every schedule of faults, when the example ends, normally
    or with an exception, the file system is what it was before and the
    file objects the example made are closed. *)
Theorem example1_leaves_nothing_behind w : cleaned_up w (run example1 w).1.
Proof.
  destruct w as [m l out td exe rnd flt].
  destruct (run example1 _) as [w' r] eqn:Hrun.
  by apply run_example1_any in Hrun as [Hclean _].
Qed.

(** X2: example 2, [try]/[finally] around a file made with
    [delete=False], leaves nothing behind whatever fails: on every world
    and under every schedule of faults, when the example ends, normally
    or with an exception, the file system is what it was before and the
    file objects the example made are closed. *)
Theorem example2_leaves_nothing_behind w : cleaned_up w (run example2 w).1.
Proof.
  destruct w as [m l out td exe rnd flt].
  destruct (run example2 _) as [w' r] eqn:Hrun.
  by apply run_example2_any in Hrun as [Hclean _].
Qed.

(** X3: example 3, the [with] block around [TemporaryDirectory], leaves
    nothing behind whatever fails: on a file system where every entry
    has its parent, under every schedule of faults, when the example
    ends, normally or with an exception, the directory and the files
    written into it are gone, nothing else has changed, and the file
    objects the example made are closed. *)
Theorem example3_leaves_nothing_behind w :
  parents_exist (fs w) → plain_names (rng w) →
  cleaned_up w (run example3 w).1.
Proof.
  destruct w as [m l out td exe rnd flt]. cbn [fs rng]. intros Hwf Hplain.
  destruct (run example3 _) as [w' r] eqn:Hrun.
  by apply run_example3_any in Hrun as [Hclean _].
Qed.



(** X6: the script as a whole, under every schedule of faults, on a
    file system where every entry has its parent: if it returns, the
    file system is what it was before and every file object it made is
    closed; if it raises, the file system is unchanged or has exactly one
    new file (the one example 4 or example 5 left), and then the error is
    an [OSError].  No entry that was there before is removed or
    changed. *)
Theorem script_leaves_at_most_one_file w w' r :
  parents_exist (fs w) → plain_names (rng w) →
  run script w = (w', r) →
  no_more_than_one_file_left w w' r ∧ fs w ⊆ fs w'.
Proof.
  intros Hwf Hplain Hrun.
  pose proof (run_script_any w w' r Hwf Hplain Hrun) as Hleft.
  split; [done | ].
  destruct r as [[] | e]; simpl in Hleft.
  - destruct Hleft as [-> _]. done.
  - destruct Hleft as [-> | (p & data & _ & Hp & ->)]; [done | ].
    by apply insert_subseteq.
Qed.

(** X7: when its thirty-eight input/output calls succeed and five
    names can be drawn, the script returns normally, has printed exactly
    the eighteen lines of [transcript] (with the names that were drawn,
    and the three file names in the order the system listed them), has
    left the file system as it found it, has closed every file object it
    made, and has used up the five names. *)
Theorem script_prints_transcript w p1 n1 p2 n2 d n3 p4 n4 p5 n5 :
  calls_succeed 38 (faults w) →
  parents_exist (fs w) → plain_names (rng w) →
  is_dir (fs w !! tmpdir w) = true →
  pick_name (fs w) (tmpdir w) ".txt" (rng w) = Some (p1, n1) →
  pick_name (fs w) (tmpdir w) ".txt" n1 = Some (p2, n2) →
  pick_name (fs w) (tmpdir w) EmptyString n2 = Some (d, n3) →
  pick_name (fs w) (tmpdir w) ".py" n3 = Some (p4, n4) →
  pick_name (fs w) (tmpdir w) ".txt" n4 = Some (p5, n5) →
  ∃ w' listing,
    run script w = (w', Ok tt) ∧
    stdout w' = stdout w +:+ printed (transcript p1 p2 d listing) ∧
    listing ≡ₚ ["file0.txt"; "file1.txt"; "file2.txt"] ∧
    cleaned_up w w' ∧
    rng w' = n5 ∧ faults w' = after_calls 38 (faults w).
Proof.
  destruct w as [m l out td exe rnd flt]. cbn [fs tmpdir rng faults stdout].
  intros Hq Hwf Hplain Hd Hp1 Hp2 Hp3 Hp4 Hp5.
  destruct (run_script_quiet m l out td exe rnd flt p1 n1 p2 n2 d n3 p4 n4 p5 n5)
    as (listing & new & Hrun & Hclosed & Hperm); try done.
  eexists _, listing. split; [exact Hrun | ].
  split_and!; try done. split; [done | by exists new].
Qed.

(** X8: no failure is swallowed, that of the child's [print] apart:
    if the script returns, then its thirty-eight input/output calls
    succeeded, or the thirty-second (the [print] of the child process)
    failed and the six after it succeeded. *)
Theorem script_returns_only_if_calls_succeed w w' :
  parents_exist (fs w) → plain_names (rng w) →
  run script w = (w', Ok tt) →
  is_dir (fs w !! tmpdir w) = true ∧
  (calls_succeed 38 (faults w) ∨
   ∃ flt', faults w = 31 :: flt' ∧ calls_succeed 6 flt').
Proof.
  destruct w as [m l out td exe rnd flt]. cbn [fs tmpdir rng faults].
  intros Hwf Hplain Hrun.
  by destruct (run_script_returns _ _ _ _ _ _ _ _ Hwf Hplain Hrun) as (Hd & _ & Hq).
Qed.


(** ** The theorems at work on a small world *)

(** The small world is well formed. *)
Lemma small_world_parents schedule : parents_exist (fs (small_world schedule)).
Proof.
  unfold parents_exist, small_world, fs. apply map_Forall_singleton.
  apply Forall_cons. split; [by left | apply Forall_nil_2].
Defined.

Lemma small_world_plain schedule : plain_names (rng (small_world schedule)).
Proof. unfold plain_names, small_world, rng. by repeat constructor. Defined.

(** C1 on the small world: the three files and the listing. *)
Lemma example3_creates_and_lists_three_files_witness :
  ∃ w1 files,
    run (example3_body "/tmp/tmpk3x9q2ab")
        (do_TemporaryDirectory (small_world [])).1 = (w1, Ok files) ∧
    (∀ p, "/tmp/tmpk3x9q2ab" ∈ Path.ancestors p →
          fs (do_TemporaryDirectory (small_world [])).1 !! p = None) ∧
    fs w1 =
      <[Path.join "/tmp/tmpk3x9q2ab" "file2.txt" := File 420 ("File 2 content" +:+ Py.nl)]>
        (<[Path.join "/tmp/tmpk3x9q2ab" "file1.txt" := File 420 ("File 1 content" +:+ Py.nl)]>
          (<[Path.join "/tmp/tmpk3x9q2ab" "file0.txt" := File 420 ("File 0 content" +:+ Py.nl)]>
            (fs (do_TemporaryDirectory (small_world [])).1))) ∧
    files ≡ₚ ["file0.txt"; "file1.txt"; "file2.txt"] ∧
    (run example3_scope (small_world [])).2 = Ok files.
Proof.
  apply (proj1 example3_creates_and_lists_three_files (small_world [])).
  - apply small_world_parents.
  - apply small_world_plain.
  - exact I.
  - vm_compute. reflexivity.
Defined.

(** C2 on the small world. *)
Lemma temp_script_prints_its_arguments_witness :
  ∃ w' result,
    run example4 (small_world []) = (w', Ok result) ∧
    Subprocess.args result =
      [executable (small_world []); "/tmp/tmpk3x9q2ab.py"; "arg1"; "arg2"] ∧
    Subprocess.returncode result = 0%Z ∧
    Subprocess.stdout result =
      "Temporary script running with args: ['arg1', 'arg2']" +:+ Py.nl ∧
    ∃ line, line ∈ Py.splitlines (Subprocess.stdout result) ∧
            Py.contains "arg1" line = true ∧ Py.contains "arg2" line = true.
Proof.
  apply (proj1 temp_script_prints_its_arguments (small_world []) "/tmp/tmpk3x9q2ab.py"
           ["w8_fz01c"; "p5m2yy7d"; "a0b1c2d3"; "zz9_8x7y"]).
  - exact I.
  - vm_compute. reflexivity.
  - vm_compute. reflexivity.
Defined.

(** C3 on the small world, for both examples. *)
Lemma written_content_is_read_back_witness :
  (∃ w2 perm,
     run (example1_body (TmpFile 0 "/tmp/tmpk3x9q2ab.txt"))
         (do_NamedTemporaryFile mode_w true ".txt" (small_world [])).1
       = (w2, Ok example1_data) ∧
     fs w2 !! "/tmp/tmpk3x9q2ab.txt" = Some (File perm example1_data) ∧
     (run example1_scope (small_world [])).2 = Ok example1_data) ∧
  (∃ w2 perm,
     run (example2_body "/tmp/tmpk3x9q2ab.txt") (run example2_create (small_world [])).1
       = (w2, Ok example2_data) ∧
     fs w2 !! "/tmp/tmpk3x9q2ab.txt" = Some (File perm example2_data)).
Proof.
  split.
  - apply (proj1 written_content_is_read_back (small_world [])
             (do_NamedTemporaryFile mode_w true ".txt" (small_world [])).1
             (TmpFile 0 "/tmp/tmpk3x9q2ab.txt")).
    + exact I.
    + vm_compute. reflexivity.
  - apply (proj1 (proj2 written_content_is_read_back) (small_world [])
             (run example2_create (small_world [])).1 "/tmp/tmpk3x9q2ab.txt").
    + exact I.
    + vm_compute. reflexivity.
Defined.

(** C4 on the small world: the file of example 2 is cleaned up once,
    and cleaning up again changes nothing. *)
Lemma cleanup_twice_is_safe_witness :
  let p := "/tmp/tmpk3x9q2ab.txt" in
  let w := (run example2_create (small_world [])).1 in
  let w' := (run (example2_finally p) w).1 in
  fs w !! p = Some (File 384 EmptyString) ∧
  fs w' !! p = None ∧
  run (example2_finally p) w' = (w', Ok tt) ∧
  run (example4_finally p) w' = (w', Ok tt).
Proof.
  intros p w w'. split; [by vm_compute | ]. split; [by vm_compute | ]. split.
  - apply (proj1 (proj2 cleanup_twice_is_safe) w p w' (run (example2_finally p) w).2).
    + vm_compute. reflexivity.
    + apply surjective_pairing.
  - apply (proj1 cleanup_twice_is_safe w' p). vm_compute. reflexivity.
Defined.

(** C5 on the small world: a body that raises at its first call, a
    body that returns, a directory whose third call fails. *)
Lemma scoped_temporaries_are_gone_witness :
  (run example1_scope (small_world [0])).2 = Raised OSError ∧
  fs (run example1_scope (small_world [0])).1 !! "/tmp/tmpk3x9q2ab.txt" = None ∧
  fs (run example1_scope (small_world [])).1 !! "/tmp/tmpk3x9q2ab.txt" = None ∧
  fs (run example3_scope (small_world [])).1 !! "/tmp/tmpk3x9q2ab/file0.txt" = None ∧
  fs (run example3_scope (small_world [2])).1 !! "/tmp/tmpk3x9q2ab" = None.
Proof.
  split; [by vm_compute | ]. split; [ | split; [ | split]].
  - apply (proj1 scoped_temporaries_are_gone (small_world [0])
             (do_NamedTemporaryFile mode_w true ".txt" (small_world [0])).1
             (TmpFile 0 "/tmp/tmpk3x9q2ab.txt") _
             (run example1_scope (small_world [0])).2).
    + vm_compute. reflexivity.
    + apply surjective_pairing.
  - apply (proj1 scoped_temporaries_are_gone (small_world [])
             (do_NamedTemporaryFile mode_w true ".txt" (small_world [])).1
             (TmpFile 0 "/tmp/tmpk3x9q2ab.txt") _
             (run example1_scope (small_world [])).2).
    + vm_compute. reflexivity.
    + apply surjective_pairing.
  - apply (proj2 scoped_temporaries_are_gone (small_world [])
             (do_TemporaryDirectory (small_world [])).1 "/tmp/tmpk3x9q2ab" _
             (run example3_scope (small_world [])).2).
    + vm_compute. reflexivity.
    + apply surjective_pairing.
    + vm_compute. reflexivity.
  - apply (proj2 scoped_temporaries_are_gone (small_world [2])
             (do_TemporaryDirectory (small_world [2])).1
             "/tmp/tmpk3x9q2ab" _
             (run example3_scope (small_world [2])).2).
    + vm_compute. reflexivity.
    + apply surjective_pairing.
    + vm_compute. reflexivity.
Defined.

(** C6 on the small world. *)
Lemma example5_existence_checks_witness :
  ∃ w',
    run example5 (small_world []) = (w', Ok (true, false)) ∧
    fs w' = fs (small_world []) ∧
    stdout w' =
      ((stdout (small_world [])
          +:+ "✓ Example 5: NamedTemporaryFile with manual deletion" +:+ Py.nl)
         +:+ "  File persists: True" +:+ Py.nl)
         +:+ "  After removal: False" +:+ Py.nl +:+ Py.nl.
Proof.
  apply (proj1 example5_existence_checks (small_world []) "/tmp/tmpk3x9q2ab.txt"
           ["w8_fz01c"; "p5m2yy7d"; "a0b1c2d3"; "zz9_8x7y"]).
  - exact I.
  - vm_compute. reflexivity.
  - vm_compute. reflexivity.
Defined.

(** C7 on the small world: on a path that is not there the deletion of
    example 5 raises, the guarded one of example 2 does not. *)
Lemma deletions_guarded_except_example5_witness :
  fs (small_world []) !! "/tmp/gone.txt" = None ∧
  (run (example5_remove "/tmp/gone.txt") (small_world [])).2 = Raised FileNotFoundError ∧
  (run (example2_finally "/tmp/gone.txt") (small_world [])).2 = Ok tt.
Proof.
  split; [by vm_compute | ]. split; [ | by vm_compute].
  apply (proj2 (proj2 (proj2 (proj2 (proj2 deletions_guarded_except_example5))))
           (small_world []) "/tmp/gone.txt").
  - vm_compute. reflexivity.
  - exact I.
Defined.

(** C8 on the small world: the process cannot be started; the child
    exits with status 1. *)
Lemma example4_spawn_error_propagates_status_ignored_witness :
  (∃ w', run example4 (small_world [3]) = (w', Raised OSError) ∧
         fs w' !! "/tmp/tmpk3x9q2ab.py" = None) ∧
  (∃ w' result,
     run example4 (small_world [4]) = (w', Ok result) ∧
     Subprocess.returncode result = 1%Z ∧
     fs w' !! "/tmp/tmpk3x9q2ab.py" = None).
Proof.
  split.
  - apply (proj1 example4_spawn_error_propagates_status_ignored
             (small_world [3]) "/tmp/tmpk3x9q2ab.py"
             ["w8_fz01c"; "p5m2yy7d"; "a0b1c2d3"; "zz9_8x7y"] []).
    + reflexivity.
    + vm_compute. reflexivity.
    + vm_compute. reflexivity.
  - apply (proj2 example4_spawn_error_propagates_status_ignored
             (small_world [4]) "/tmp/tmpk3x9q2ab.py"
             ["w8_fz01c"; "p5m2yy7d"; "a0b1c2d3"; "zz9_8x7y"] []).
    + reflexivity.
    + exact I.
    + vm_compute. reflexivity.
    + vm_compute. reflexivity.
Defined.

(** C9 on the small world. *)
Lemma example2_initial_handle_closed_witness :
  ∃ w1 o,
    run example2_create (small_world []) = (w1, Ok "/tmp/tmpk3x9q2ab.txt") ∧
    files w1 !! 0 = Some o ∧ f_path o = "/tmp/tmpk3x9q2ab.txt" ∧ f_open o = false.
Proof.
  destruct (example2_initial_handle_closed (small_world [])
              (do_NamedTemporaryFile mode_wb_plus false ".txt" (small_world [])).1
              (TmpFile 0 "/tmp/tmpk3x9q2ab.txt"))
    as (w1 & o & Hrun & Ho & Hpath & Hopen & _).
  - vm_compute. reflexivity.
  - exists w1, o. repeat split; assumption.
Defined.

(** C10 for an argument list of three. *)
Lemma temp_script_exit_status_witness :
  exit_status (run_with no_spawn (temp_script ["/tmp/t.py"; "one"; "it's"; "-x"])
                 (small_world [])).2 = 0%Z.
Proof.
  apply (temp_script_exit_status ["/tmp/t.py"; "one"; "it's"; "-x"] (small_world [])).
  reflexivity.
Defined.

(** ** The guarantees at work on a small world *)

(** X3 on the small world, with the write of file1.txt failing. *)
Lemma example3_leaves_nothing_behind_witness :
  cleaned_up (small_world [5]) (run example3 (small_world [5])).1.
Proof.
  apply example3_leaves_nothing_behind.
  - apply small_world_parents.
  - apply small_world_plain.
Defined.



(** X6 on the small world, with the write of example 5 failing. *)
Lemma script_leaves_at_most_one_file_witness :
  no_more_than_one_file_left (small_world [34]) (run script (small_world [34])).1
    (run script (small_world [34])).2 ∧
  fs (small_world [34]) ⊆ fs (run script (small_world [34])).1.
Proof.
  apply script_leaves_at_most_one_file.
  - apply small_world_parents.
  - apply small_world_plain.
  - apply surjective_pairing.
Defined.

(** X7 on the small world. *)
Lemma script_prints_transcript_witness :
  ∃ w' listing,
    run script (small_world []) = (w', Ok tt) ∧
    stdout w' =
      stdout (small_world []) +:+
      printed (transcript "/tmp/tmpk3x9q2ab.txt" "/tmp/tmpw8_fz01c.txt" "/tmp/tmpp5m2yy7d"
                 listing) ∧
    listing ≡ₚ ["file0.txt"; "file1.txt"; "file2.txt"] ∧
    cleaned_up (small_world []) w' ∧
    rng w' = [] ∧ faults w' = after_calls 38 (faults (small_world [])).
Proof.
  apply (script_prints_transcript (small_world [])
           "/tmp/tmpk3x9q2ab.txt" ["w8_fz01c"; "p5m2yy7d"; "a0b1c2d3"; "zz9_8x7y"]
           "/tmp/tmpw8_fz01c.txt" ["p5m2yy7d"; "a0b1c2d3"; "zz9_8x7y"]
           "/tmp/tmpp5m2yy7d" ["a0b1c2d3"; "zz9_8x7y"]
           "/tmp/tmpa0b1c2d3.py" ["zz9_8x7y"]
           "/tmp/tmpzz9_8x7y.txt" []).
  - exact I.
  - apply small_world_parents.
  - apply small_world_plain.
  - vm_compute. reflexivity.
  - vm_compute. reflexivity.
  - vm_compute. reflexivity.
  - vm_compute. reflexivity.
  - vm_compute. reflexivity.
  - vm_compute. reflexivity.
Defined.

(** X8 on the small world, with the child's [print] failing: the
    script returns. *)
Lemma script_returns_only_if_calls_succeed_witness :
  is_dir (fs (small_world [31]) !! tmpdir (small_world [31])) = true ∧
  (calls_succeed 38 (faults (small_world [31])) ∨
   ∃ flt', faults (small_world [31]) = 31 :: flt' ∧ calls_succeed 6 flt').
Proof.
  assert ((run script (small_world [31])).2 = Ok tt) as Hreturns
    by (vm_compute; reflexivity).
  apply (script_returns_only_if_calls_succeed (small_world [31])
           (run script (small_world [31])).1).
  - apply small_world_parents.
  - apply small_world_plain.
  - rewrite <- Hreturns. apply surjective_pairing.
Defined.

